(** * Freight price prediction service

    A shallow embedding of the request handler [predict] of
    [ml/api/main.py] and of the feature layout fixed by
    [ml/train_model.py], together with the Python built-ins the handler
    relies on: [float()], [round()], [repr()], string formatting, the
    exception hierarchy walked by [except] clauses, and the column
    selection of a one-row data frame.

    Python [str] values are modelled by Rocq strings read as sequences of
    code points below 256; Python [float] values are IEEE binary64 numbers,
    modelled by [spec_float] with precision 53 and maximal exponent 1024. *)

From Stdlib Require Import ZArith NArith String Ascii List Bool Lia.
From Stdlib Require Import Floats.SpecFloat.
From stdpp Require Import base option list gmap strings pretty.

(** ** Python strings *)

Module PyStr.
Local Open Scope N_scope.

Definition code (c : ascii) : N := N_of_ascii c.

Definition squote : ascii := ascii_of_N 39.
Definition dquote : ascii := ascii_of_N 34.
Definition backslash : ascii := ascii_of_N 92.

Definition char (c : ascii) : string := String c EmptyString.

Definition hex_digit (n : N) : ascii :=
  ascii_of_N (if n <? 10 then 48 + n else 87 + n).

(** [\xhh], lower-case hexadecimal. *)
Definition hex_escape (c : ascii) : string :=
  String backslash
    (String "x" (String (hex_digit (code c / 16)) (char (hex_digit (code c mod 16))))).

(** [Py_UNICODE_ISPRINTABLE] below 256: the control characters, the
    no-break space and the soft hyphen are not printable. *)
Definition is_printable (c : ascii) : bool :=
  let n := code c in
  ((32 <=? n) && (n <? 127)) || ((161 <=? n) && negb (n =? 173)).

Definition repr_char (quote c : ascii) : string :=
  if Ascii.eqb c quote || Ascii.eqb c backslash then String backslash (char c)
  else if code c =? 9 then String backslash "t"
  else if code c =? 10 then String backslash "n"
  else if code c =? 13 then String backslash "r"
  else if is_printable c then char c
  else hex_escape c.

Fixpoint has_char (c : ascii) (s : string) : bool :=
  match s with
  | EmptyString => false
  | String d r => Ascii.eqb c d || has_char c r
  end.

Fixpoint repr_body (quote : ascii) (s : string) : string :=
  match s with
  | EmptyString => EmptyString
  | String c r => repr_char quote c +:+ repr_body quote r
  end.

(** [repr(s)] for a [str]: single quotes, unless the text has a single
    quote and no double quote. *)
Definition repr (s : string) : string :=
  let quote := if has_char squote s && negb (has_char dquote s) then dquote else squote in
  String quote (repr_body quote s +:+ char quote).

Fixpoint join (sep : string) (l : list string) : string :=
  match l with
  | [] => EmptyString
  | [x] => x
  | x :: r => x +:+ sep +:+ join sep r
  end.

(** [str(l)] for a list of [str]: what an f-string prints for it. *)
Definition str_list (l : list string) : string :=
  "[" +:+ join ", " (map repr l) +:+ "]".

(** [needle in hay] for two [str]. *)
Fixpoint contains (needle hay : string) : bool :=
  String.prefix needle hay ||
  match hay with
  | EmptyString => false
  | String _ r => contains needle r
  end.
End PyStr.

(** ** Python floats: IEEE binary64 *)

Module Binary64.
Local Open Scope Z_scope.

Definition prec : Z := 53.
Definition emax : Z := 1024.

Definition float : Type := spec_float.

Definition is_finite (x : float) : bool :=
  match x with
  | S754_zero _ | S754_finite _ _ _ => true
  | _ => false
  end.

Definition is_infinite (x : float) : bool :=
  match x with
  | S754_infinity _ => true
  | _ => false
  end.

(** The numbers of the format: a mantissa of at most 53 bits at the
    exponent that fits it. *)
Definition valid (x : float) : bool := valid_binary prec emax x.

(** The exponent at which a number of magnitude below [2 ^ t] is kept. *)
Definition fexp64 (t : Z) : Z := Z.max (t - 53) (-1074).

(** The nearest binary64 number to the integer [z], ties to even. *)
Definition of_Z (z : Z) : float := binary_normalize prec emax z 0 false.

(** The nearest binary64 number to [n / d] with the sign [sx], ties to
    even; too large a quotient gives an infinity, too small a zero. *)
Definition of_ratio (sx : bool) (n : N) (d : positive) : float :=
  match n with
  | N0 => S754_zero sx
  | Npos p =>
      let '(mz, ez, lz) := SFdiv_core_binary prec emax (Zpos p) 0 (Zpos d) 0 in
      binary_round_aux prec emax sx mz ez lz
  end.

(** The nearest binary64 number to [digits * 10 ^ exp10]. *)
Definition of_decimal (sx : bool) (digits : N) (exp10 : Z) : float :=
  match exp10 with
  | Zneg k => of_ratio sx digits (10 ^ k)
  | _ => of_ratio sx (digits * 10 ^ Z.to_N exp10) 1
  end.

(** [|x| = num / den] for a finite [x]. *)
Definition magnitude (x : float) : Z * Z :=
  match x with
  | S754_finite _ m e =>
      match e with
      | Zneg k => (Zpos m, Zpos (2 ^ k))
      | _ => (Zpos m * 2 ^ e, 1)
      end
  | _ => (0, 1)
  end.

Definition sign (x : float) : bool :=
  match x with
  | S754_zero s | S754_infinity s | S754_finite s _ _ => s
  | S754_nan => false
  end.

(** [Some z] when [x] is exactly the integer [z]. *)
Definition to_Z (x : float) : option Z :=
  match x with
  | S754_zero _ => Some 0
  | S754_finite s m e =>
      let (num, den) := magnitude x in
      if num mod den =? 0 then Some (if s then - (num / den) else num / den) else None
  | _ => None
  end.

(** *** [int.__float__] *)

(** [None] stands for the [OverflowError] of an integer beyond the
    binary64 range. *)
Definition float_of_int (z : Z) : option float :=
  let x := of_Z z in
  if is_infinite x then None else Some x.

(** *** [float.__round__] with a number of digits *)

(** The integer nearest to [n / d], ties to the even one ([0 <= n],
    [0 < d]). *)
Definition round_half_even (n d : Z) : Z :=
  let q := n / d in
  match 2 * (n mod d) ?= d with
  | Lt => q
  | Gt => q + 1
  | Eq => if Z.even q then q else q + 1
  end.

(** The decimal with [ndigits] places nearest to [|x|], as the integer
    count of units [10 ^ (- ndigits)]: the digit string of [_Py_dg_dtoa]
    in mode 3. *)
Definition dtoa_fixed (x : float) (ndigits : Z) : Z :=
  let (num, den) := magnitude x in
  match ndigits with
  | Zneg k => round_half_even num (den * Zpos (10 ^ k))
  | _ => round_half_even (num * 10 ^ ndigits) den
  end.

(** [double_round]: to a decimal string and back.  [None] stands for
    the [OverflowError] raised when the way back overflows. *)
Definition double_round (x : float) (ndigits : Z) : option float :=
  let rounded := of_decimal (sign x) (Z.to_N (dtoa_fixed x ndigits)) (- ndigits) in
  if is_infinite rounded then None else Some rounded.

Definition NDIGITS_MAX : Z := 323.
Definition NDIGITS_MIN : Z := -308.

Definition float_round (x : float) (ndigits : Z) : option float :=
  if negb (is_finite x) then Some x
  else if NDIGITS_MAX <? ndigits then Some x
  else if ndigits <? NDIGITS_MIN then Some (S754_zero (sign x))
  else double_round x ndigits.

(** *** [float(str)] *)

Definition code (c : ascii) : Z := Z.of_N (N_of_ascii c).

Definition is_digit (c : ascii) : bool := (48 <=? code c) && (code c <=? 57).
Definition digit_val (c : ascii) : N := N_of_ascii c - 48.

(** [Py_ISSPACE]: tab, line feed, vertical tab, form feed, carriage
    return, space. *)
Definition is_space (c : ascii) : bool :=
  ((9 <=? code c) && (code c <=? 13)) || (code c =? 32).

Definition to_lower (c : ascii) : ascii :=
  if (65 <=? code c) && (code c <=? 90) then ascii_of_N (N_of_ascii c + 32) else c.

(** [_PyUnicode_TransformDecimalAndSpaceToASCII] on code points below
    256: an ASCII text is left alone; otherwise the next-line control and
    the no-break space become spaces, and the text is cut at the first
    other code point from 127 on, which becomes a question mark (there
    is no decimal digit in that range). *)
Fixpoint transform_chars (l : list ascii) : list ascii :=
  match l with
  | [] => []
  | c :: r =>
      if code c <? 127 then c :: transform_chars r
      else if (code c =? 133) || (code c =? 160) then " "%char :: transform_chars r
      else ["?"%char]
  end.

Definition transform_decimal_and_space (l : list ascii) : list ascii :=
  if forallb (fun c => code c <? 128) l then l else transform_chars l.

(** The underscore pass of [_Py_string_to_number_with_underscores]: an
    underscore stands between two digits and is dropped. *)
Fixpoint drop_underscores (prev : ascii) (l : list ascii) : option (list ascii) :=
  match l with
  | [] => if Ascii.eqb prev "_" then None else Some []
  | c :: r =>
      if code c =? 0 then None
      else if Ascii.eqb c "_" then
        if is_digit prev then drop_underscores c r else None
      else if Ascii.eqb prev "_" && negb (is_digit c) then None
      else option_map (cons c) (drop_underscores c r)
  end.

Fixpoint skip_zeros (l : list ascii) (n : N) : N * list ascii :=
  match l with
  | c :: r => if Ascii.eqb c "0" then skip_zeros r (n + 1)%N else (n, l)
  | [] => (n, [])
  end.

(** Reads digits: the value so far, how many were read, the rest. *)
Fixpoint span_digits (l : list ascii) (acc n : N) : N * N * list ascii :=
  match l with
  | c :: r =>
      if is_digit c then span_digits r (10 * acc + digit_val c)%N (n + 1)%N
      else (acc, n, l)
  | [] => (acc, n, [])
  end.

Definition read_sign (l : list ascii) : bool * list ascii :=
  match l with
  | c :: r =>
      if Ascii.eqb c "-" then (true, r)
      else if Ascii.eqb c "+" then (false, r)
      else (false, l)
  | [] => (false, [])
  end.

Definition MAX_DIGITS : N := 1000000000.
Definition MAX_ABS_EXP : Z := 1100000000.

(** The exponent part: [(e, rest)]; an [e] that no digit follows is not
    part of the number. *)
Definition read_exponent (l : list ascii) : Z * list ascii :=
  match l with
  | c :: r =>
      if Ascii.eqb (to_lower c) "e" then
        let '(esign, r1) := read_sign r in
        let '(nz, r2) := skip_zeros r1 0%N in
        let '(abs_exp, nexp, r3) := span_digits r2 0%N 0%N in
        if (nexp =? 0)%N && (nz =? 0)%N then (0, l)
        else
          let e := if (9 <? nexp)%N || (MAX_ABS_EXP <? Z.of_N abs_exp)
                   then MAX_ABS_EXP else Z.of_N abs_exp in
          (if esign then - e else e, r3)
      else (0, l)
  | [] => (0, [])
  end.

(** The parsing step of [_Py_dg_strtod] followed by its correctly
    rounded conversion.  [None]: no number starts the text. *)
Definition dg_strtod (l : list ascii) : option (float * list ascii) :=
  let '(sx, l1) := read_sign l in
  let '(z1, l2) := skip_zeros l1 0%N in
  let '(ival, nint, l3) := span_digits l2 0%N 0%N in
  let '(mant, ndigits, fraclen, lz, l4) :=
    match l3 with
    | c :: r =>
        if Ascii.eqb c "." then
          let '(z2, r1) := if (nint =? 0)%N then skip_zeros r 0%N else (0%N, r) in
          let '(m, nfrac, r2) := span_digits r1 ival 0%N in
          (m, (nint + nfrac)%N, (z2 + nfrac)%N, (0 <? z1)%N || (0 <? z2)%N, r2)
        else (ival, nint, 0%N, (0 <? z1)%N, l3)
    | [] => (ival, nint, 0%N, (0 <? z1)%N, l3)
    end in
  if (ndigits =? 0)%N && negb lz then None
  else if (MAX_DIGITS <? ndigits)%N || (MAX_DIGITS <? fraclen)%N then None
  else
    let '(e, l5) := read_exponent l4 in
    Some (of_decimal sx mant (e - Z.of_N fraclen), l5).

Fixpoint match_lower (l : list ascii) (t : list ascii) : option (list ascii) :=
  match t with
  | [] => Some l
  | d :: t' =>
      match l with
      | c :: r => if Ascii.eqb (to_lower c) d then match_lower r t' else None
      | [] => None
      end
  end.

(** [_Py_parse_inf_or_nan] *)
Definition parse_inf_or_nan (l : list ascii) : option (float * list ascii) :=
  let '(negate, s) := read_sign l in
  match match_lower s (list_ascii_of_string "inf") with
  | Some r =>
      match match_lower r (list_ascii_of_string "inity") with
      | Some r' => Some (S754_infinity negate, r')
      | None => Some (S754_infinity negate, r)
      end
  | None =>
      match match_lower s (list_ascii_of_string "nan") with
      | Some r => Some (S754_nan, r)
      | None => None
      end
  end.

(** [_PyOS_ascii_strtod] *)
Definition ascii_strtod (l : list ascii) : option (float * list ascii) :=
  match dg_strtod l with
  | Some r => Some r
  | None => parse_inf_or_nan l
  end.

Fixpoint lstrip (l : list ascii) : list ascii :=
  match l with
  | c :: r => if is_space c then lstrip r else l
  | [] => []
  end.

(** [float_from_string_inner]: the whole text between the surrounding
    blanks has to be one number. *)
Definition float_from_string_inner (l : list ascii) : option float :=
  match lstrip l with
  | [] => None
  | s =>
      match ascii_strtod (rev (lstrip (rev s))) with
      | Some (x, []) => Some x
      | _ => None
      end
  end.

(** [PyFloat_FromString] on a [str]; [None] stands for its
    [ValueError]. *)
Definition float_from_string (s : string) : option float :=
  let l := transform_decimal_and_space (list_ascii_of_string s) in
  if existsb (Ascii.eqb "_") l then
    match drop_underscores zero l with
    | Some l' => float_from_string_inner l'
    | None => None
    end
  else float_from_string_inner l.
End Binary64.

(** ** Python values, exceptions and built-ins *)

Export Binary64(float).

(** What a JSON body decodes to, and what the handler computes with. *)
#[warning="-register-all"] Inductive pyval :=
| PNone
| PBool (b : bool)
| PInt (z : Z)
| PFloat (f : float)
| PStr (s : string)
| PList (l : list pyval)
| PDict (d : list (string * pyval)).

(** An exception object: the HTTP error of the web framework with its two
    attributes, or any other exception, given by the names of its class and
    of the classes above it, and by its text [str(e)]. *)
Inductive exn :=
| HTTPException (status_code : Z) (detail : string)
| PyExc (mro : list string) (msg : string).

Definition ValueError (msg : string) : exn :=
  PyExc ["ValueError"; "Exception"; "BaseException"] msg.
Definition TypeError (msg : string) : exn :=
  PyExc ["TypeError"; "Exception"; "BaseException"] msg.
Definition OverflowError (msg : string) : exn :=
  PyExc ["OverflowError"; "ArithmeticError"; "Exception"; "BaseException"] msg.
Definition KeyError (msg : string) : exn :=
  PyExc ["KeyError"; "LookupError"; "Exception"; "BaseException"] msg.
Definition IndexError (msg : string) : exn :=
  PyExc ["IndexError"; "LookupError"; "Exception"; "BaseException"] msg.

Definition exn_mro (e : exn) : list string :=
  match e with
  | HTTPException _ _ => ["HTTPException"; "Exception"; "BaseException"]
  | PyExc mro _ => mro
  end.

(** [isinstance(e, cls)], the test of an [except cls] clause. *)
Definition isinstance (e : exn) (cls : string) : bool :=
  bool_decide (cls ∈ exn_mro e).

(** A computation that returns or raises. *)
Inductive res (A : Type) :=
| Ok (a : A)
| Raise (e : exn).
Arguments Ok {A} a.
Arguments Raise {A} e.

#[global] Instance res_ret : MRet res := fun A a => Ok a.
#[global] Instance res_bind : MBind res := fun A B f m =>
  match m with
  | Ok a => f a
  | Raise e => Raise e
  end.
Arguments res_ret _ _ /.
Arguments res_bind _ _ _ !_ /.

Definition type_name (v : pyval) : string :=
  match v with
  | PNone => "NoneType"
  | PBool _ => "bool"
  | PInt _ => "int"
  | PFloat _ => "float"
  | PStr _ => "str"
  | PList _ => "list"
  | PDict _ => "dict"
  end.

(** [float(v)] *)
Definition py_float (v : pyval) : res float :=
  match v with
  | PFloat f => Ok f
  | PInt z =>
      match Binary64.float_of_int z with
      | Some f => Ok f
      | None => Raise (OverflowError "int too large to convert to float")
      end
  | PBool b => Ok (Binary64.of_Z (if b then 1 else 0))
  | PStr s =>
      match Binary64.float_from_string s with
      | Some f => Ok f
      | None => Raise (ValueError ("could not convert string to float: " +:+ PyStr.repr s))
      end
  | _ =>
      Raise (TypeError ("float() argument must be a string or a real number, not '"
                        +:+ type_name v +:+ "'"))
  end.

(** [round(x, ndigits)] on a float *)
Definition py_round (x : float) (ndigits : Z) : res float :=
  match Binary64.float_round x ndigits with
  | Some r => Ok r
  | None => Raise (OverflowError "rounded value too large to represent")
  end.

(** [v == s] for a [str] constant [s]: only an equal [str] is equal. *)
Definition py_eq_str (v : pyval) (s : string) : bool :=
  match v with
  | PStr t => String.eqb t s
  | _ => false
  end.

(** [v in l] for a list [l] of [str] constants. *)
Definition py_in (v : pyval) (l : list string) : bool := existsb (py_eq_str v) l.

(** [data[key]] on a dict *)
Definition py_getitem (data : gmap string pyval) (key : string) : res pyval :=
  match data !! key with
  | Some v => Ok v
  | None => Raise (KeyError (PyStr.repr key))
  end.

(** ** The one-row data frame *)

Record DataFrame := { columns : list string; rows : list (list pyval) }.

(** [pd.DataFrame([record])]: one row, the keys of the record as columns,
    in the order of the dict. *)
Definition DataFrame_of_record (record : list (string * pyval)) : DataFrame :=
  {| columns := record.*1; rows := [record.*2] |}.

Definition cell (cols : list string) (row : list pyval) (name : string) : option pyval :=
  '(i, _) ← list_find (fun c => c = name) cols; row !! i.

(** ** What the libraries fix *)

(** Two texts come from the installed web framework and data-frame
    library and not from this repository: [str(e)] of an [HTTPException]
    with a given status code and detail, and [str(e)] of the [KeyError]
    raised when requested column labels (first argument) are missing
    (second argument). *)
Record Libraries := {
  http_exception_str : Z -> string -> string;
  missing_columns_str : list string -> list string -> string
}.

(** The loaded model: the column names it was fitted on, and its
    prediction, one number per row of the frame it is given. *)
Record Model := {
  feature_names_in_ : list string;
  model_predict : DataFrame -> res (list float)
}.

Section Service.
Variable lib : Libraries.
Variable model : Model.

(** [str(e)] *)
Definition str_exn (e : exn) : string :=
  match e with
  | HTTPException status_code detail => http_exception_str lib status_code detail
  | PyExc _ msg => msg
  end.

(** [df[names]]: the named columns in the order asked for, or a
    [KeyError] when a name is no column. *)
Definition df_getitem (df : DataFrame) (names : list string) : res DataFrame :=
  match filter (fun n => n ∉ columns df) names with
  | [] => Ok {| columns := names;
                rows := map (fun row => omap (cell (columns df) row) names) (rows df) |}
  | missing => Raise (KeyError (missing_columns_str lib names missing))
  end.

(** [a[0]] on the array of predictions *)
Definition first_prediction (a : list float) : res float :=
  match a with
  | x :: _ => Ok x
  | [] => Raise (IndexError "index 0 is out of bounds for axis 0 with size 0")
  end.

Definition feature_names : list string := feature_names_in_ model.

Definition required_fields : list string :=
  ["distance_km"; "weight_kg"; "cargo_type"; "urgency_days"].

Definition cargo_types : list string := ["general"; "fragile"; "perishable"].

(** Lines 31-36: the loop over the required fields. *)
Fixpoint check_required (data : gmap string pyval) (fields : list string) : res unit :=
  match fields with
  | [] => Ok tt
  | field :: rest =>
      if bool_decide (data !! field = None)
      then Raise (HTTPException 422 ("Missing required field: " +:+ field))
      else check_required data rest
  end.

Definition flag (cargo_type : pyval) (name : string) : pyval :=
  PInt (if py_eq_str cargo_type name then 1 else 0).

(** Lines 48-55: the dict display, evaluated left to right. *)
Definition encode_features (data : gmap string pyval) (cargo_type : pyval)
  : res (list (string * pyval)) :=
  distance_km ← py_getitem data "distance_km" ≫= py_float;
  weight_kg ← py_getitem data "weight_kg" ≫= py_float;
  urgency_days ← py_getitem data "urgency_days" ≫= py_float;
  Ok [("distance_km", PFloat distance_km);
      ("weight_kg", PFloat weight_kg);
      ("urgency_days", PFloat urgency_days);
      ("cargo_type_perishable", flag cargo_type "perishable");
      ("cargo_type_fragile", flag cargo_type "fragile");
      ("cargo_type_general", flag cargo_type "general")].

(** Line 58: the frame handed to the model. *)
Definition input_data (features : list (string * pyval)) : res DataFrame :=
  df_getitem (DataFrame_of_record features) feature_names.

(** Lines 61-62: the prediction for the one row, rounded, as the
    response body. *)
Definition predict_frame (frame : DataFrame) : res (list (string * pyval)) :=
  price ← model_predict model frame ≫= first_prediction;
  rounded ← py_round price 2;
  Ok [("predicted_price", PFloat rounded)].

(** Lines 29-62: the body of the [try] statement. *)
Definition predict_body (data : gmap string pyval) : res (list (string * pyval)) :=
  _ ← check_required data required_fields;
  cargo_type ← py_getitem data "cargo_type";
  if negb (py_in cargo_type cargo_types)
  then Raise (HTTPException 422
                ("Invalid cargo_type. Must be one of: " +:+ PyStr.str_list cargo_types))
  else
    features ← encode_features data cargo_type;
    frame ← input_data features;
    predict_frame frame.

(** Lines 64-67: the two [except] clauses, tried in order; an exception
    that neither matches goes on to the caller. *)
Definition handle (e : exn) : exn :=
  if isinstance e "ValueError"
  then HTTPException 422 ("Invalid input format: " +:+ str_exn e)
  else if isinstance e "Exception"
  then HTTPException 500 (str_exn e)
  else e.

Definition try_except {A} (body : res A) : res A :=
  match body with
  | Ok a => Ok a
  | Raise e => Raise (handle e)
  end.

(** Lines 27-67. *)
Definition predict (data : gmap string pyval) : res (list (string * pyval)) :=
  try_except (predict_body data).
End Service.

(** The status code of the error response, when the handler raises an
    [HTTPException]. *)
Definition error_status {A} (r : res A) : option Z :=
  match r with
  | Raise (HTTPException status_code _) => Some status_code
  | _ => None
  end.

Definition error_detail {A} (r : res A) : option string :=
  match r with
  | Raise (HTTPException _ detail) => Some detail
  | _ => None
  end.

(** ** The feature layout of the training script *)

(** [ml/train_model.py], lines 10-15 and 31-34: [get_dummies] moves the
    indicator columns of [cargo_type] to the end, one per category in
    sorted order, and the price column is dropped. *)
Definition trained_feature_names : list string :=
  ["distance_km"; "weight_kg"; "urgency_days";
   "cargo_type_fragile"; "cargo_type_general"; "cargo_type_perishable"].

(** ** The columns the training script fits the model on *)

Module Train.
(** [ml/train_model.py], lines 10-15 and 18: the columns of the sample,
    in the order of the dict; the price is added last. *)
Definition sample_columns : list string :=
  ["distance_km"; "weight_kg"; "cargo_type"; "urgency_days"; "price_usd"].

(** Line 13: the values the cargo type is drawn from. *)
Definition cargo_choices : list string := ["general"; "fragile"; "perishable"].

(** The levels of a column of [str]: its distinct values in increasing
    order, as [get_dummies] factorizes them. *)
Fixpoint insert_level (x : string) (l : list string) : list string :=
  match l with
  | [] => [x]
  | y :: r =>
      match String.compare x y with
      | Lt => x :: l
      | Eq => l
      | Gt => y :: insert_level x r
      end
  end.

Definition levels (values : list string) : list string := foldr insert_level [] values.

(** [df.drop(label, axis=1)] on the column names; [None] stands for the
    [KeyError] of a label that is no column. *)
Definition drop (label : string) (cols : list string) : option (list string) :=
  if bool_decide (label ∈ cols) then Some (filter (fun c => c ≠ label) cols) else None.

(** [pd.get_dummies(df, columns=[column])] on the column names: the
    other columns in their order, then one indicator column per level of
    the encoded column, named [column_level]. *)
Definition get_dummies (cols : list string) (column : string) (values : list string)
  : option (list string) :=
  rest ← drop column cols;
  Some (rest ++ map (fun level => column +:+ "_" +:+ level) (levels values)).

(** Lines 27-37: the column names of [X], which the fitted model keeps as
    [feature_names_in_], for a sample whose cargo types are [cargo_type]. *)
Definition fitted_feature_names (cargo_type : list string) : option (list string) :=
  cols ← get_dummies sample_columns "cargo_type" cargo_type;
  drop "price_usd" cols.
End Train.

(** ** Loading the model when the service starts *)

(** What [joblib.load] gives back: an object whose attribute
    [feature_names_in_] may be missing, in which case reading it raises. *)
Record Estimator := {
  est_feature_names_in_ : res (list string);
  est_predict : DataFrame -> res (list float)
}.

Definition RuntimeError (msg : string) : exn :=
  PyExc ["RuntimeError"; "Exception"; "BaseException"] msg.

(** [ml/api/main.py], lines 19-24: the model and its feature names, or a
    [RuntimeError] for every [Exception] on the way. *)
Definition startup (lib : Libraries) (load : res Estimator) : res Model :=
  match (model ← load;
         feature_names ← est_feature_names_in_ model;
         Ok {| feature_names_in_ := feature_names; model_predict := est_predict model |}) with
  | Ok served => Ok served
  | Raise e =>
      if isinstance e "Exception"
      then Raise (RuntimeError ("Failed to load model: " +:+ str_exn lib e))
      else Raise e
  end.

(** ** Notions used to state the properties *)

(** All four required keys are in the request. *)
Definition has_required (data : gmap string pyval) : Prop :=
  ∀ f, f ∈ required_fields → is_Some (data !! f).

(** The first required key, in the order of the check, that the request
    lacks. *)
Definition first_missing (data : gmap string pyval) : option string :=
  snd <$> list_find (fun f => data !! f = None) required_fields.

(** The three conversions run in the order distance, weight, urgency;
    [coercion_raises data field v e]: the conversions before [field]
    return, and the one of [field], whose value is [v], raises [e]. *)
Inductive coercion_raises (data : gmap string pyval) : string → pyval → exn → Prop :=
| raises_distance v e :
    data !! "distance_km" = Some v → py_float v = Raise e →
    coercion_raises data "distance_km" v e
| raises_weight v0 x0 v e :
    data !! "distance_km" = Some v0 → py_float v0 = Ok x0 →
    data !! "weight_kg" = Some v → py_float v = Raise e →
    coercion_raises data "weight_kg" v e
| raises_urgency v0 x0 v1 x1 v e :
    data !! "distance_km" = Some v0 → py_float v0 = Ok x0 →
    data !! "weight_kg" = Some v1 → py_float v1 = Ok x1 →
    data !! "urgency_days" = Some v → py_float v = Raise e →
    coercion_raises data "urgency_days" v e.

(** The request passes every check of the handler and [features] is its
    encoded feature map. *)
Definition validated (data : gmap string pyval) (features : list (string * pyval)) : Prop :=
  has_required data ∧
  ∃ cargo_type, data !! "cargo_type" = Some cargo_type ∧
                py_in cargo_type cargo_types = true ∧
                encode_features data cargo_type = Ok features.

(** The integer a Python number is equal to, if any. *)
Definition number_value (v : pyval) : option Z :=
  match v with
  | PInt z => Some z
  | PBool b => Some (if b then 1 else 0)%Z
  | PFloat f => Binary64.to_Z f
  | _ => None
  end.

(** [r] is the binary64 number nearest to a decimal with two places,
    [k / 100], that lies within half a hundredth of [x], and has the
    sign of [x]; a value that is not finite is its own rounding. *)
Definition nearest_hundredth (x r : float) : Prop :=
  if Binary64.is_finite x then
    ∃ k : Z, (0 ≤ k)%Z ∧
      (2 * Z.abs (100 * (Binary64.magnitude x).1 - k * (Binary64.magnitude x).2)
         ≤ (Binary64.magnitude x).2)%Z ∧
      r = Binary64.of_decimal (Binary64.sign x) (Z.to_N k) (-2)
  else r = x.

(** The cargo types among fragile, general and perishable that three
    flags pick, in increasing order. *)
Definition pick (fragile general perishable : bool) : list string :=
  (if fragile then ["fragile"] else []) ++
  (if general then ["general"] else []) ++
  (if perishable then ["perishable"] else []).

(** ** Sample collaborators, to run the handler *)

Module Sample.
(** Texts of current releases: Starlette prints the status code before
    the detail; pandas names the missing labels, or all the labels asked
    for when none is a column. *)
Definition libraries : Libraries :=
  {| http_exception_str := fun status_code detail => pretty status_code +:+ ": " +:+ detail;
     missing_columns_str := fun names missing =>
       PyStr.repr
         (if bool_decide (missing = names)
          then "None of [Index(" +:+ PyStr.str_list names
               +:+ ", dtype='object')] are in the [columns]"
          else PyStr.str_list missing +:+ " not in index") |}.

(** A model that answers [price] for every row. *)
Definition constant (names : list string) (price : float) : Model :=
  {| feature_names_in_ := names;
     model_predict := fun frame => Ok (map (fun _ => price) (rows frame)) |}.

(** A model whose prediction raises [e]. *)
Definition raising (names : list string) (e : exn) : Model :=
  {| feature_names_in_ := names; model_predict := fun _ => Raise e |}.

Definition is_nan (v : pyval) : bool :=
  match v with
  | PFloat S754_nan => true
  | _ => false
  end.

(** A model that, like the fitted regressor, refuses a frame that holds
    a NaN with a [ValueError]. *)
Definition nan_checking (names : list string) (price : float) : Model :=
  {| feature_names_in_ := names;
     model_predict := fun frame =>
       if existsb (existsb is_nan) (rows frame)
       then Raise (ValueError "Input X contains NaN.")
       else Ok (map (fun _ => price) (rows frame)) |}.

Definition request (distance_km weight_kg cargo_type urgency_days : pyval)
  : gmap string pyval :=
  {[ "distance_km" := distance_km; "weight_kg" := weight_kg;
     "cargo_type" := cargo_type; "urgency_days" := urgency_days ]}.

(** The request of the specification's worked example. *)
Definition fragile_request : gmap string pyval :=
  request (PInt 500) (PInt 2000) (PStr "fragile") (PInt 5).

(** The feature order of the specification's worked example. *)
Definition example_schema : list string :=
  ["distance_km"; "weight_kg"; "urgency_days";
   "cargo_type_perishable"; "cargo_type_fragile"; "cargo_type_general"].

Definition example_vector : list pyval :=
  [PFloat (Binary64.of_Z 500); PFloat (Binary64.of_Z 2000); PFloat (Binary64.of_Z 5);
   PInt 0; PInt 1; PInt 0].

(** 123.4567 and 123.46 as binary64 numbers. *)
Definition price_123_4567 : float := Binary64.of_decimal false 1234567 (-4).
Definition price_123_46 : float := Binary64.of_decimal false 12346 (-2).

(** Models on the feature order of the training script. *)
Definition regressor : Model := nan_checking trained_feature_names price_123_4567.
Definition broken_regressor : Model :=
  raising trained_feature_names
    (PyExc ["RuntimeError"; "Exception"; "BaseException"] "out of memory").

(** A model fitted on a column the handler does not encode. *)
Definition drifted_regressor : Model :=
  constant (trained_feature_names ++ ["cargo_type_hazardous"]) price_123_4567.

Definition hazardous_request : gmap string pyval :=
  request (PInt 500) (PInt 2000) (PStr "hazardous") (PInt 5).
Definition hazardous_abc_request : gmap string pyval :=
  request (PStr "abc") (PInt 2000) (PStr "hazardous") (PInt 5).
Definition null_request : gmap string pyval :=
  request PNone (PInt 2000) (PStr "fragile") (PInt 5).
Definition abc_request : gmap string pyval :=
  request (PStr "abc") (PInt 2000) (PStr "fragile") (PInt 5).
Definition nan_request : gmap string pyval :=
  request (PStr "nan") (PInt 2000) (PStr "fragile") (PInt 5).
End Sample.

(** A request given by its four values has the four required keys. *)
Ltac solve_has_required :=
  let f := fresh "f" in
  let Hf := fresh "Hf" in
  intros f Hf; unfold required_fields in Hf;
  repeat (apply elem_of_cons in Hf as [->|Hf]; [by eexists|]);
  by apply elem_of_nil in Hf.

(** ** The error monad *)

Lemma bind_Ok_inv {A B} (m : res A) (f : A → res B) b :
  m ≫= f = Ok b → ∃ a, m = Ok a ∧ f a = Ok b.
Proof. destruct m as [a|e]; [by exists a|done]. Qed.

(** ** Built-ins *)

(** [float()] raises nothing but the three exceptions of its cases. *)
Lemma py_float_raises v e :
  py_float v = Raise e →
  (∃ s, v = PStr s ∧ Binary64.float_from_string s = None ∧
        e = ValueError ("could not convert string to float: " +:+ PyStr.repr s)) ∨
  (∃ z, v = PInt z ∧ e = OverflowError "int too large to convert to float") ∨
  ((v = PNone ∨ (∃ l, v = PList l) ∨ (∃ d, v = PDict d)) ∧
   e = TypeError ("float() argument must be a string or a real number, not '"
                  +:+ type_name v +:+ "'")).
Proof.
  destruct v as [|b|z|f|s|l|d]; simpl; try done.
  - intros [= <-]. right; right. eauto.
  - destruct (Binary64.float_of_int z); [done|]. intros [= <-]. right; left. eauto.
  - destruct (Binary64.float_from_string s) eqn:E; [done|]. intros [= <-]. left. eauto.
  - intros [= <-]. right; right. eauto.
  - intros [= <-]. right; right. eauto.
Qed.

Lemma py_float_raises_Exception v e :
  py_float v = Raise e → isinstance e "Exception" = true.
Proof.
  intros H. apply py_float_raises in H as [(s & _ & _ & ->)|[(z & _ & ->)|(_ & ->)]];
    reflexivity.
Qed.

Lemma py_in_cargo_types v :
  py_in v cargo_types = true ↔ ∃ c, v = PStr c ∧ c ∈ cargo_types.
Proof.
  unfold py_in, cargo_types. split.
  - intros H. apply existsb_exists in H as (c & Hc & Heq).
    destruct v as [| | | |s| |]; try done. simpl in Heq.
    apply String.eqb_eq in Heq as ->. exists c. split; [done|by apply list_elem_of_In].
  - intros (c & -> & Hc). apply existsb_exists. exists c.
    split; [by apply list_elem_of_In|]. simpl. apply String.eqb_refl.
Qed.

(** ** The stages of the handler *)

Section Stages.
Variable lib : Libraries.
Variable model : Model.

Lemma handle_HTTPException status_code detail :
  handle lib (HTTPException status_code detail)
  = HTTPException 500 (http_exception_str lib status_code detail).
Proof. reflexivity. Qed.

Lemma handle_ValueError e :
  isinstance e "ValueError" = true →
  handle lib e = HTTPException 422 ("Invalid input format: " +:+ str_exn lib e).
Proof. unfold handle. by intros ->. Qed.

Lemma handle_other_Exception e :
  isinstance e "ValueError" = false → isinstance e "Exception" = true →
  handle lib e = HTTPException 500 (str_exn lib e).
Proof. unfold handle. by intros -> ->. Qed.

Lemma check_required_find data fields :
  check_required data fields =
  match list_find (fun f => data !! f = None) fields with
  | Some (_, field) => Raise (HTTPException 422 ("Missing required field: " +:+ field))
  | None => Ok tt
  end.
Proof.
  induction fields as [|f fields IH]; [reflexivity|].
  cbn [check_required list_find].
  case_bool_decide; case_decide; try done.
  rewrite IH. by destruct (list_find _ fields) as [[? ?]|].
Qed.

Lemma check_required_present data :
  has_required data → check_required data required_fields = Ok tt.
Proof.
  intros H. rewrite check_required_find.
  destruct (list_find _ _) as [[i f]|] eqn:E; [|done].
  apply list_find_Some in E as (Hi & Hf & _).
  destruct (H f) as [v Hv]; [by eapply list_elem_of_lookup_2|congruence].
Qed.

Lemma first_missing_Some data field :
  first_missing data = Some field → field ∈ required_fields ∧ data !! field = None.
Proof.
  unfold first_missing. destruct (list_find _ _) as [[i f]|] eqn:E; [|done].
  intros [= <-]. apply list_find_Some in E as (Hi & Hf & _).
  split; [by eapply list_elem_of_lookup_2|done].
Qed.

Lemma lacks_first_missing data :
  (∃ f, f ∈ required_fields ∧ data !! f = None) → is_Some (first_missing data).
Proof.
  intros (f & Hin & Hf). unfold first_missing.
  destruct (list_find _ _) as [[i g]|] eqn:E; [by eexists|].
  exfalso. eapply list_find_None in E. rewrite Forall_forall in E. by eapply E.
Qed.

Lemma predict_body_missing data field :
  first_missing data = Some field →
  predict_body lib model data
  = Raise (HTTPException 422 ("Missing required field: " +:+ field)).
Proof.
  unfold first_missing, predict_body. rewrite check_required_find.
  destruct (list_find _ _) as [[i f]|]; [|done]. by intros [= <-].
Qed.

(** Past the check of the required keys, the body is the cargo test
    followed by encoding, alignment and prediction. *)
Lemma predict_body_present data cargo_type :
  has_required data → data !! "cargo_type" = Some cargo_type →
  predict_body lib model data =
  if negb (py_in cargo_type cargo_types)
  then Raise (HTTPException 422
                ("Invalid cargo_type. Must be one of: " +:+ PyStr.str_list cargo_types))
  else
    features ← encode_features data cargo_type;
    frame ← input_data lib model features;
    predict_frame model frame.
Proof.
  intros Hreq Hc. unfold predict_body. rewrite check_required_present by done.
  unfold py_getitem. by rewrite Hc.
Qed.

Lemma encode_features_raises data cargo_type field v e :
  coercion_raises data field v e → encode_features data cargo_type = Raise e.
Proof.
  unfold encode_features, py_getitem.
  destruct 1 as [v e H0 E0|v0 x0 v e H0 E0 H1 E1|v0 x0 v1 x1 v e H0 E0 H1 E1 H2 E2];
    simpl; rewrite ?H0; simpl; rewrite ?E0; simpl; try done;
    rewrite ?H1; simpl; rewrite ?E1; simpl; try done.
  rewrite H2. simpl. by rewrite E2.
Qed.
End Stages.

(** ** What the handler answers, case by case *)

Section Answers.
Variable lib : Libraries.
Variable model : Model.

(** The [HTTPException] raised for a missing key is caught by the last
    [except] clause of the same [try] statement. *)
Lemma predict_missing_field data field :
  first_missing data = Some field →
  predict lib model data
  = Raise (HTTPException 500
             (http_exception_str lib 422 ("Missing required field: " +:+ field))).
Proof.
  intros H. unfold predict. by rewrite (predict_body_missing lib model data field H).
Qed.

(** Every request that lacks a required key is answered that way, for
    the first such key in the order of the check. *)
Lemma predict_lacking_field data :
  (∃ f, f ∈ required_fields ∧ data !! f = None) →
  ∃ field, field ∈ required_fields ∧ data !! field = None ∧
    predict lib model data
    = Raise (HTTPException 500
               (http_exception_str lib 422 ("Missing required field: " +:+ field))).
Proof.
  intros [field Hfirst]%lacks_first_missing.
  destruct (first_missing_Some data field Hfirst) as [Hin Hnone].
  exists field. split_and!; [done|done|]. by apply predict_missing_field.
Qed.

(** So is the one raised for a cargo type outside the list. *)
Lemma predict_invalid_cargo data cargo_type :
  has_required data → data !! "cargo_type" = Some cargo_type →
  py_in cargo_type cargo_types = false →
  predict lib model data
  = Raise (HTTPException 500
             (http_exception_str lib 422
                "Invalid cargo_type. Must be one of: ['general', 'fragile', 'perishable']")).
Proof.
  intros Hreq Hc Hin. unfold predict.
  rewrite (predict_body_present lib model data cargo_type Hreq Hc), Hin. reflexivity.
Qed.

(** An exception of a conversion reaches the [except] clauses as it is. *)
Lemma predict_coercion_raises data cargo_type field v e :
  has_required data → data !! "cargo_type" = Some cargo_type →
  py_in cargo_type cargo_types = true →
  coercion_raises data field v e →
  predict lib model data = Raise (handle lib e).
Proof.
  intros Hreq Hc Hin Hraise. unfold predict.
  rewrite (predict_body_present lib model data cargo_type Hreq Hc), Hin. simpl.
  by rewrite (encode_features_raises data cargo_type field v e Hraise).
Qed.

(** A value that is no string and does not convert: status 500. *)
Lemma predict_unconvertible_non_string data cargo_type field v e :
  has_required data → data !! "cargo_type" = Some cargo_type →
  py_in cargo_type cargo_types = true →
  coercion_raises data field v e → (∀ s, v ≠ PStr s) →
  predict lib model data = Raise (HTTPException 500 (str_exn lib e)).
Proof.
  intros Hreq Hc Hin Hraise Hv.
  rewrite (predict_coercion_raises data cargo_type field v e Hreq Hc Hin Hraise).
  assert (He : py_float v = Raise e) by (by inversion Hraise).
  apply py_float_raises in He as [(s & -> & _)|[(z & _ & ->)|(_ & ->)]];
    [by destruct (Hv s)|reflexivity|reflexivity].
Qed.

(** A string that does not parse: status 422, and the [repr] of the
    string in the detail. *)
Lemma predict_unparsable_string data cargo_type field s e :
  has_required data → data !! "cargo_type" = Some cargo_type →
  py_in cargo_type cargo_types = true →
  coercion_raises data field (PStr s) e →
  predict lib model data
  = Raise (HTTPException 422
             ("Invalid input format: could not convert string to float: "
              +:+ PyStr.repr s)).
Proof.
  intros Hreq Hc Hin Hraise.
  rewrite (predict_coercion_raises data cargo_type field (PStr s) e Hreq Hc Hin Hraise).
  assert (He : py_float (PStr s) = Raise e) by (by inversion Hraise).
  apply py_float_raises in He as [(s' & [= <-] & _ & ->)|[(z & ? & _)|([?|[[l ?]|[d ?]]] & _)]];
    done.
Qed.

(** A validated request is answered by the alignment and the model. *)
Lemma predict_validated data features :
  validated data features →
  predict lib model data
  = try_except lib (frame ← input_data lib model features; predict_frame model frame).
Proof.
  intros (Hreq & cargo_type & Hc & Hin & Henc). unfold predict.
  rewrite (predict_body_present lib model data cargo_type Hreq Hc), Hin. simpl.
  by rewrite Henc.
Qed.
End Answers.

(** ** Claims on the error responses of the validation *)

(** C1 (the code departs from the claim).  The request of the worked
    example without its [weight_kg] is not answered with status 422 and
    the detail "Missing required field: weight_kg": the handler raises
    that error inside its own [try] statement, whose last clause catches
    every [Exception] and answers with status 500; the detail is the text
    of the caught error.  Whatever the model, it is not consulted. *)
Theorem C1_missing_weight_kg_answered_500 (lib : Libraries) (model : Model) :
  first_missing (delete "weight_kg" Sample.fragile_request) = Some "weight_kg" ∧
  predict_body lib model (delete "weight_kg" Sample.fragile_request)
  = Raise (HTTPException 422 "Missing required field: weight_kg") ∧
  predict lib model (delete "weight_kg" Sample.fragile_request)
  = Raise (HTTPException 500
             (http_exception_str lib 422 "Missing required field: weight_kg")).
Proof.
  split; [reflexivity|]. split.
  - by apply predict_body_missing.
  - by apply predict_missing_field.
Qed.

(** C2 (the code departs from the claim).  A request with all four keys
    and the cargo type "hazardous" is not answered with status 422: the
    error that lists the three allowed values is raised, then caught by
    the last [except] clause and answered with status 500. *)
Theorem C2_hazardous_cargo_answered_500 (lib : Libraries) (model : Model) :
  has_required Sample.hazardous_request ∧
  py_in (PStr "hazardous") cargo_types = false ∧
  predict_body lib model Sample.hazardous_request
  = Raise (HTTPException 422
             "Invalid cargo_type. Must be one of: ['general', 'fragile', 'perishable']") ∧
  predict lib model Sample.hazardous_request
  = Raise (HTTPException 500
             (http_exception_str lib 422
                "Invalid cargo_type. Must be one of: ['general', 'fragile', 'perishable']")).
Proof.
  assert (Hreq : has_required Sample.hazardous_request) by solve_has_required.
  split_and!; [done|reflexivity| |].
  - by rewrite (predict_body_present lib model _ (PStr "hazardous") Hreq).
  - by apply predict_invalid_cargo with (cargo_type := PStr "hazardous").
Qed.

(** C3 (the code departs from the claim).  A request with a valid cargo
    type whose [distance_km] is JSON [null] is not answered with status
    422 and an "Invalid input format" detail: [float(None)] raises a
    [TypeError], which only the last [except] clause catches, and the
    answer has status 500. *)
Theorem C3_null_distance_answered_500 (lib : Libraries) (model : Model) :
  has_required Sample.null_request ∧
  py_in (PStr "fragile") cargo_types = true ∧
  coercion_raises Sample.null_request "distance_km" PNone
    (TypeError "float() argument must be a string or a real number, not 'NoneType'") ∧
  predict lib model Sample.null_request
  = Raise (HTTPException 500
             "float() argument must be a string or a real number, not 'NoneType'").
Proof.
  assert (Hreq : has_required Sample.null_request) by solve_has_required.
  assert (Hraise : coercion_raises Sample.null_request "distance_km" PNone
            (TypeError "float() argument must be a string or a real number, not 'NoneType'"))
    by (by apply raises_distance).
  split_and!; [done|reflexivity|done|].
  by rewrite (predict_unconvertible_non_string lib model _ (PStr "fragile") _ _ _
                Hreq eq_refl eq_refl Hraise).
Qed.

(** C9 (the code departs from the claim).  With the cargo type
    "hazardous", whatever the three numeric values are, "abc" or any
    other, the cargo check decides the answer before any conversion
    runs, and the answer is not the invalid-format error; but it is not
    the invalid-cargo error of status 422 either: as for C2, that error
    is caught and answered with status 500. *)
Theorem C9_hazardous_cargo_before_coercion_answered_500
    (lib : Libraries) (model : Model) (distance_km weight_kg urgency_days : pyval) :
  py_float (PStr "abc")
  = Raise (ValueError "could not convert string to float: 'abc'") ∧
  predict lib model
    (Sample.request distance_km weight_kg (PStr "hazardous") urgency_days)
  = Raise (HTTPException 500
             (http_exception_str lib 422
                "Invalid cargo_type. Must be one of: ['general', 'fragile', 'perishable']")).
Proof.
  split; [reflexivity|].
  apply predict_invalid_cargo with (cargo_type := PStr "hazardous");
    [solve_has_required|reflexivity|reflexivity].
Qed.

(** ** Claims on encoding and alignment *)

(** C4.  With the feature order of the worked example and the request
    [{distance_km: 500, weight_kg: 2000, cargo_type: "fragile",
    urgency_days: 5}], the frame handed to the model has the one row
    [500, 2000, 5, 0, 1, 0], whatever the model computes: the answer of the
    handler is the model's answer on that frame, rounded and wrapped. *)
Theorem C4_aligned_vector_of_the_example
    (lib : Libraries) (f : DataFrame → res (list float)) :
  (features ← encode_features Sample.fragile_request (PStr "fragile");
   input_data lib {| feature_names_in_ := Sample.example_schema; model_predict := f |} features)
  = Ok {| columns := Sample.example_schema; rows := [Sample.example_vector] |} ∧
  predict lib {| feature_names_in_ := Sample.example_schema; model_predict := f |}
    Sample.fragile_request
  = try_except lib
      (predict_frame {| feature_names_in_ := Sample.example_schema; model_predict := f |}
         {| columns := Sample.example_schema; rows := [Sample.example_vector] |}) ∧
  map number_value Sample.example_vector
  = [Some 500; Some 2000; Some 5; Some 0; Some 1; Some 0]%Z.
Proof.
  assert (Henc : encode_features Sample.fragile_request (PStr "fragile")
                 = Ok [("distance_km", PFloat (Binary64.of_Z 500));
                       ("weight_kg", PFloat (Binary64.of_Z 2000));
                       ("urgency_days", PFloat (Binary64.of_Z 5));
                       ("cargo_type_perishable", PInt 0);
                       ("cargo_type_fragile", PInt 1);
                       ("cargo_type_general", PInt 0)]) by reflexivity.
  split; [by rewrite Henc|split; [|reflexivity]].
  assert (Hreq : has_required Sample.fragile_request) by solve_has_required.
  rewrite (predict_validated lib _ _ _
             (conj Hreq (ex_intro _ (PStr "fragile") (conj eq_refl (conj eq_refl Henc))))).
  reflexivity.
Qed.

(** C5.  For a request whose cargo type is one of the three allowed
    values and whose three numeric values convert, the encoded feature map
    has six entries under six different names: the three converted
    numbers as they are, and three flags of which exactly one is 1, the
    one named after the cargo type, and the other two are 0. *)
Theorem C5_one_hot_encoding (data : gmap string pyval) (c : string)
    (v0 v1 v2 : pyval) (x0 x1 x2 : float) :
  data !! "cargo_type" = Some (PStr c) → c ∈ cargo_types →
  data !! "distance_km" = Some v0 → py_float v0 = Ok x0 →
  data !! "weight_kg" = Some v1 → py_float v1 = Ok x1 →
  data !! "urgency_days" = Some v2 → py_float v2 = Ok x2 →
  ∃ (features : list (string * pyval)) (general fragile perishable : Z),
    encode_features data (PStr c) = Ok features ∧
    features = [("distance_km", PFloat x0); ("weight_kg", PFloat x1);
                ("urgency_days", PFloat x2);
                ("cargo_type_perishable", PInt perishable);
                ("cargo_type_fragile", PInt fragile);
                ("cargo_type_general", PInt general)] ∧
    length features = 6%nat ∧ NoDup features.*1 ∧
    ((general, fragile, perishable) = (1, 0, 0)%Z ∧ c = "general" ∨
     (general, fragile, perishable) = (0, 1, 0)%Z ∧ c = "fragile" ∨
     (general, fragile, perishable) = (0, 0, 1)%Z ∧ c = "perishable").
Proof.
  intros _ Hc H0 E0 H1 E1 H2 E2.
  assert (Henc : encode_features data (PStr c)
                 = Ok [("distance_km", PFloat x0); ("weight_kg", PFloat x1);
                       ("urgency_days", PFloat x2);
                       ("cargo_type_perishable", flag (PStr c) "perishable");
                       ("cargo_type_fragile", flag (PStr c) "fragile");
                       ("cargo_type_general", flag (PStr c) "general")]).
  { unfold encode_features, py_getitem. rewrite H0, H1, H2. simpl.
    rewrite E0. simpl. rewrite E1. simpl. by rewrite E2. }
  assert (Hnodup : NoDup ["distance_km"; "weight_kg"; "urgency_days";
                          "cargo_type_perishable"; "cargo_type_fragile";
                          "cargo_type_general"]).
  { apply (bool_decide_unpack _). reflexivity. }
  unfold cargo_types in Hc.
  repeat (apply elem_of_cons in Hc as [->|Hc]); [| | |by apply elem_of_nil in Hc].
  - eexists _, 1%Z, 0%Z, 0%Z. split; [exact Henc|]. repeat split; try done. by left.
  - eexists _, 0%Z, 1%Z, 0%Z. split; [exact Henc|]. repeat split; try done. by right; left.
  - eexists _, 0%Z, 0%Z, 1%Z. split; [exact Henc|]. repeat split; try done. by right; right.
Qed.

Lemma C5_fragile_request_is_one_hot :
  ∃ (features : list (string * pyval)) (general fragile perishable : Z),
    encode_features Sample.fragile_request (PStr "fragile") = Ok features ∧
    features = [("distance_km", PFloat (Binary64.of_Z 500));
                ("weight_kg", PFloat (Binary64.of_Z 2000));
                ("urgency_days", PFloat (Binary64.of_Z 5));
                ("cargo_type_perishable", PInt perishable);
                ("cargo_type_fragile", PInt fragile);
                ("cargo_type_general", PInt general)] ∧
    length features = 6%nat ∧ NoDup features.*1 ∧
    ((general, fragile, perishable) = (1, 0, 0)%Z ∧ "fragile" = "general" ∨
     (general, fragile, perishable) = (0, 1, 0)%Z ∧ "fragile" = "fragile" ∨
     (general, fragile, perishable) = (0, 0, 1)%Z ∧ "fragile" = "perishable").
Proof.
  apply (C5_one_hot_encoding Sample.fragile_request "fragile"
           (PInt 500) (PInt 2000) (PInt 5)).
  - reflexivity.
  - apply (bool_decide_unpack _). reflexivity.
  - reflexivity.
  - reflexivity.
  - reflexivity.
  - reflexivity.
  - reflexivity.
  - reflexivity.
Defined.

(** ** Claims on the success response *)

Lemma round_half_even_near (n d : Z) :
  (0 ≤ n)%Z → (0 < d)%Z →
  (0 ≤ Binary64.round_half_even n d)%Z ∧
  (2 * Z.abs (n - Binary64.round_half_even n d * d) ≤ d)%Z.
Proof.
  intros Hn Hd. unfold Binary64.round_half_even.
  pose proof (Z.div_mod n d ltac:(lia)) as Hdiv.
  pose proof (Z.mod_pos_bound n d Hd) as Hmod.
  pose proof (Z.div_pos n d Hn Hd) as Hq.
  destruct (Z.compare_spec (2 * (n mod d)) d) as [Heq|Hlt|Hgt];
    [destruct (Z.even (n / d))| |]; split; lia.
Qed.

Lemma magnitude_bounds (x : float) :
  (0 ≤ (Binary64.magnitude x).1)%Z ∧ (0 < (Binary64.magnitude x).2)%Z.
Proof.
  destruct x as [s|s| |s m [|p|p]]; cbn [Binary64.magnitude fst snd]; lia.
Qed.

Lemma dtoa_fixed_2 (x : float) :
  Binary64.dtoa_fixed x 2
  = Binary64.round_half_even (100 * (Binary64.magnitude x).1) (Binary64.magnitude x).2.
Proof.
  unfold Binary64.dtoa_fixed. destruct (Binary64.magnitude x) as [num den].
  cbn [fst snd]. f_equal. change (10 ^ 2)%Z with 100%Z. lia.
Qed.

(** [round(x, 2)], when it returns, returns the binary64 number nearest
    to the nearest decimal with two places. *)
Lemma py_round_2_nearest (x r : float) :
  py_round x 2 = Ok r → nearest_hundredth x r.
Proof.
  unfold py_round, Binary64.float_round, nearest_hundredth.
  destruct (Binary64.is_finite x); cbn [negb]; [|by intros [= <-]].
  change (Binary64.NDIGITS_MAX <? 2)%Z with false.
  change (2 <? Binary64.NDIGITS_MIN)%Z with false.
  cbv iota. unfold Binary64.double_round.
  destruct (Binary64.is_infinite _); [done|]. intros [= <-].
  destruct (magnitude_bounds x) as [Hnum Hden].
  destruct (round_half_even_near (100 * (Binary64.magnitude x).1)
              (Binary64.magnitude x).2 ltac:(lia) Hden) as [Hk Hnear].
  exists (Binary64.dtoa_fixed x 2). rewrite dtoa_fixed_2. done.
Qed.

(** *** [round(x, 2)] returns for every binary64 number *)

Section Rounding.
Local Open Scope Z_scope.

Lemma digits2_pos_bounds (p : positive) :
  2 ^ (Z.pos (digits2_pos p) - 1) ≤ Z.pos p < 2 ^ Z.pos (digits2_pos p).
Proof.
  induction p as [p IH|p IH|]; cbn [digits2_pos].
  - rewrite Pos2Z.inj_succ. replace (Z.succ (Z.pos (digits2_pos p)) - 1) with (Z.succ (Z.pos (digits2_pos p) - 1)) by lia.
    rewrite !Z.pow_succ_r by lia. lia.
  - rewrite Pos2Z.inj_succ. replace (Z.succ (Z.pos (digits2_pos p)) - 1) with (Z.succ (Z.pos (digits2_pos p) - 1)) by lia.
    rewrite !Z.pow_succ_r by lia. lia.
  - simpl. lia.
Qed.

Lemma Zdigits2_nonneg (m : Z) : 0 ≤ Zdigits2 m.
Proof. destruct m; simpl; lia. Qed.

Lemma Zdigits2_lt_pow (m : Z) : 0 ≤ m → m < 2 ^ Zdigits2 m.
Proof.
  destruct m as [|p|p]; intros H; [simpl; lia| |lia].
  apply digits2_pos_bounds.
Qed.

Lemma Zdigits2_le (m d : Z) : 0 ≤ m → 0 ≤ d → m < 2 ^ d → Zdigits2 m ≤ d.
Proof.
  destruct m as [|p|p]; intros Hm Hd H; [simpl; lia| |lia].
  cbn [Zdigits2]. pose proof (digits2_pos_bounds p) as [Hlo _].
  destruct (Z.le_gt_cases (Z.pos (digits2_pos p)) d) as [|Hgt]; [done|].
  exfalso. assert (2 ^ d ≤ 2 ^ (Z.pos (digits2_pos p) - 1)) by (apply Z.pow_le_mono_r; lia).
  lia.
Qed.

Lemma Zdigits2_mul_pow (p : positive) (t : Z) :
  0 ≤ t → Zdigits2 (Z.pos p * 2 ^ t) = Z.pos (digits2_pos p) + t.
Proof.
  intros Ht. pose proof (digits2_pos_bounds p) as [Hlo Hhi].
  assert (Hpos : 0 < 2 ^ t) by (apply Z.pow_pos_nonneg; lia).
  assert (0 < Z.pos p * 2 ^ t) by lia.
  destruct (Z.pos p * 2 ^ t) as [|q|q] eqn:E; [lia| |lia].
  cbn [Zdigits2]. pose proof (digits2_pos_bounds q) as [Hlo' Hhi'].
  rewrite <- E in Hlo', Hhi'.
  assert (H1 : Z.pos p * 2 ^ t < 2 ^ (Z.pos (digits2_pos p) + t)).
  { rewrite Z.pow_add_r by lia. nia. }
  assert (H2 : 2 ^ (Z.pos (digits2_pos p) - 1 + t) ≤ Z.pos p * 2 ^ t).
  { rewrite Z.pow_add_r by lia. nia. }
  destruct (Z.lt_trichotomy (Z.pos (digits2_pos q)) (Z.pos (digits2_pos p) + t)) as [Hlt|[Heq|Hgt]];
    [|done|]; exfalso.
  - assert (2 ^ Z.pos (digits2_pos q) ≤ 2 ^ (Z.pos (digits2_pos p) - 1 + t))
      by (apply Z.pow_le_mono_r; lia). lia.
  - assert (2 ^ (Z.pos (digits2_pos p) + t) ≤ 2 ^ (Z.pos (digits2_pos q) - 1))
      by (apply Z.pow_le_mono_r; lia). lia.
Qed.

Lemma iter_pos_nat {A} (f : A → A) (p : positive) (x : A) :
  SpecFloat.iter_pos f p x = Nat.iter (Pos.to_nat p) f x.
Proof.
  revert x. induction p as [p IH|p IH|]; intros x; cbn [SpecFloat.iter_pos].
  - rewrite !IH, Pos2Nat.inj_xI, Nat.iter_succ_r.
    replace (2 * Pos.to_nat p)%nat with (Pos.to_nat p + Pos.to_nat p)%nat by lia.
    by rewrite Nat.iter_add.
  - rewrite !IH, Pos2Nat.inj_xO.
    replace (2 * Pos.to_nat p)%nat with (Pos.to_nat p + Pos.to_nat p)%nat by lia.
    by rewrite Nat.iter_add.
  - reflexivity.
Qed.

Lemma shr_1_m (mrs : shr_record) :
  0 ≤ shr_m mrs → shr_m (shr_1 mrs) = shr_m mrs / 2.
Proof.
  destruct mrs as [m r s]. cbn [shr_m]. intros Hm.
  destruct m as [|[p|p|]|p]; cbn [shr_1 shr_m]; try reflexivity; try lia.
  - rewrite Pos2Z.inj_xI. apply Z.div_unique with 1; lia.
  - rewrite Pos2Z.inj_xO. apply Z.div_unique with 0; lia.
Qed.

Lemma shr_iter_m (n : nat) (mrs : shr_record) :
  0 ≤ shr_m mrs → shr_m (Nat.iter n shr_1 mrs) = shr_m mrs / 2 ^ Z.of_nat n.
Proof.
  intros Hm. induction n as [|n IH].
  - simpl. by rewrite Z.div_1_r.
  - change (Nat.iter (S n) shr_1 mrs) with (shr_1 (Nat.iter n shr_1 mrs)).
    rewrite shr_1_m, IH.
    + rewrite Nat2Z.inj_succ, Z.pow_succ_r by lia.
      rewrite Z.div_div by lia. f_equal. lia.
    + rewrite IH. apply Z.div_pos; [done|]. apply Z.pow_pos_nonneg; lia.
Qed.

Lemma shr_1_even (a : Z) :
  0 ≤ a → shr_1 (Build_shr_record (2 * a) false false) = Build_shr_record a false false.
Proof. destruct a as [|p|p]; [done|done|lia]. Qed.

Lemma shr_iter_exact (n : nat) (a : Z) :
  0 ≤ a →
  Nat.iter n shr_1 (Build_shr_record (a * 2 ^ Z.of_nat n) false false)
  = Build_shr_record a false false.
Proof.
  intros Ha. induction n as [|n IH].
  - simpl. f_equal. lia.
  - rewrite Nat.iter_succ_r, Nat2Z.inj_succ, Z.pow_succ_r by lia.
    replace (a * (2 * 2 ^ Z.of_nat n)) with (2 * (a * 2 ^ Z.of_nat n)) by lia.
    rewrite shr_1_even; [done|]. apply Z.mul_nonneg_nonneg; [done|].
    apply Z.pow_nonneg. lia.
Qed.

Lemma fexp_64 t : fexp 53 1024 t = Binary64.fexp64 t.
Proof. reflexivity. Qed.

(** The exponent and the mantissa after the shift of [shr_fexp]. *)
Lemma shr_fexp_spec (m e : Z) (l : location) :
  0 ≤ m →
  let r := shr_fexp 53 1024 m e l in
  r.2 = Z.max e (Binary64.fexp64 (Zdigits2 m + e)) ∧
  shr_m r.1 = m / 2 ^ (r.2 - e).
Proof.
  intros Hm. unfold shr_fexp, shr. rewrite fexp_64.
  assert (Hrec : shr_m (shr_record_of_loc m l) = m) by (by destruct l as [|[]]).
  destruct (Binary64.fexp64 (Zdigits2 m + e) - e) as [|p|p] eqn:E; cbn [fst snd].
  - split; [lia|]. rewrite Z.sub_diag, Z.div_1_r. done.
  - split; [lia|]. rewrite iter_pos_nat, shr_iter_m by lia.
    rewrite Hrec, positive_nat_Z. do 2 f_equal. lia.
  - split; [lia|]. rewrite Z.sub_diag, Z.div_1_r. done.
Qed.

Lemma round_nearest_even_bounds (m : Z) (l : location) :
  0 ≤ m → m ≤ round_nearest_even m l ≤ m + 1.
Proof.
  intros Hm. destruct l as [|[]]; cbn [round_nearest_even]; try lia.
  destruct (Z.even m); lia.
Qed.

(** Rounding a value below [2 ^ B], for a [B] far from the top of the
    range, does not overflow. *)
Lemma binary_round_aux_small (sx : bool) (mx ex : Z) (lx : location) (B : Z) :
  0 ≤ mx → ex ≤ 0 → 0 ≤ B ≤ 1000 → mx < 2 ^ (B - ex) →
  Binary64.is_infinite (binary_round_aux 53 1024 sx mx ex lx) = false.
Proof.
  intros Hmx Hex HB Hlt. unfold binary_round_aux.
  pose proof (shr_fexp_spec mx ex lx Hmx) as [He1 Hm1]. cbv zeta in He1, Hm1.
  destruct (shr_fexp 53 1024 mx ex lx) as [mrs1 e1]. cbn [fst snd] in He1, Hm1.
  assert (HD : Zdigits2 mx ≤ B - ex) by (apply Zdigits2_le; lia).
  assert (He1B : ex ≤ e1 ≤ B) by (unfold Binary64.fexp64 in He1; lia).
  assert (Hm1nn : 0 ≤ shr_m mrs1).
  { rewrite Hm1. apply Z.div_pos; [done|]. apply Z.pow_pos_nonneg; lia. }
  assert (Hm1lt : shr_m mrs1 < 2 ^ (B - e1)).
  { rewrite Hm1. apply Z.div_lt_upper_bound; [apply Z.pow_pos_nonneg; lia|].
    rewrite <- Z.pow_add_r by lia. replace (e1 - ex + (B - e1)) with (B - ex) by lia. done. }
  pose proof (round_nearest_even_bounds (shr_m mrs1) (loc_of_shr_record mrs1) Hm1nn) as Hr.
  set (mr := round_nearest_even (shr_m mrs1) (loc_of_shr_record mrs1)) in *.
  assert (Hmr : 0 ≤ mr) by lia.
  pose proof (shr_fexp_spec mr e1 loc_Exact Hmr) as [He2 Hm2]. cbv zeta in He2, Hm2.
  destruct (shr_fexp 53 1024 mr e1 loc_Exact) as [mrs2 e2]. cbn [fst snd] in He2, Hm2.
  assert (HDr : Zdigits2 mr ≤ B - e1 + 1).
  { apply Zdigits2_le; [done|lia|]. rewrite Z.pow_add_r by lia. lia. }
  assert (He2B : e2 ≤ 971) by (unfold Binary64.fexp64 in He1, He2; lia).
  destruct (shr_m mrs2); [done| |done].
  change (1024 - 53) with 971. destruct (Z.leb_spec e2 971); [done|lia].
Qed.

Lemma shr_fexp_exact (m : positive) (e t : Z) :
  fexp 53 1024 (Z.pos (digits2_pos m) + e) = e → 0 ≤ t →
  shr_fexp 53 1024 (Z.pos m * 2 ^ t) (e - t) loc_Exact
  = (Build_shr_record (Z.pos m) false false, e).
Proof.
  intros Hc Ht. unfold shr_fexp, shr.
  rewrite Zdigits2_mul_pow by done.
  replace (Z.pos (digits2_pos m) + t + (e - t)) with (Z.pos (digits2_pos m) + e) by lia.
  rewrite Hc. replace (e - (e - t)) with t by lia.
  destruct t as [|p|p]; [|..|lia].
  - cbn [shr_record_of_loc]. do 2 f_equal; lia.
  - cbn [shr_record_of_loc]. rewrite iter_pos_nat.
    rewrite <- (positive_nat_Z p) at 1.
    rewrite shr_iter_exact by lia. f_equal. lia.
Qed.

(** Rounding an exact multiple of a power of two of a binary64 mantissa
    gives that number back. *)
Lemma binary_round_aux_exact (sx : bool) (m : positive) (e t : Z) :
  bounded 53 1024 m e = true → 0 ≤ t →
  binary_round_aux 53 1024 sx (Z.pos m * 2 ^ t) (e - t) loc_Exact = S754_finite sx m e.
Proof.
  intros Hb Ht. unfold bounded, canonical_mantissa in Hb.
  apply andb_true_iff in Hb as [Hc He]. apply Z.eqb_eq in Hc.
  unfold binary_round_aux. rewrite shr_fexp_exact by done.
  cbn [shr_m loc_of_shr_record round_nearest_even].
  unfold shr_fexp, shr. cbn [Zdigits2]. rewrite Hc, Z.sub_diag.
  cbn [shr_record_of_loc shr_m]. by rewrite He.
Qed.

(** The quotient handed to the rounding: the dividend is scaled by a
    power of two first. *)
Lemma SFdiv_core_binary_spec (m1 m2 : positive) :
  ∃ s : Z, 0 ≤ s ∧
    SFdiv_core_binary 53 1024 (Z.pos m1) 0 (Z.pos m2) 0
    = ((Z.pos m1 * 2 ^ s) / Z.pos m2, - s,
       new_location (Z.pos m2) ((Z.pos m1 * 2 ^ s) mod Z.pos m2)).
Proof.
  unfold SFdiv_core_binary.
  set (e' := Z.min _ (0 - 0)).
  assert (He' : e' ≤ 0) by (subst e'; lia).
  exists (- e'). split; [lia|].
  replace (0 - 0 - e') with (- e') by lia.
  assert (Hm : match - e' with
               | Z.pos _ => Z.shiftl (Z.pos m1) (- e')
               | 0 => Z.pos m1
               | Z.neg _ => 0
               end = Z.pos m1 * 2 ^ (- e')).
  { destruct (- e') as [|p|p] eqn:E; [simpl; lia| |lia].
    rewrite Z.shiftl_mul_pow2 by lia. done. }
  rewrite Hm. unfold Z.div, Z.modulo.
  destruct (Z.div_eucl (Z.pos m1 * 2 ^ (- e')) (Z.pos m2)) as [q r].
  do 2 f_equal. lia.
Qed.

Lemma round_half_even_1 (n : Z) : Binary64.round_half_even n 1 = n.
Proof.
  unfold Binary64.round_half_even. rewrite Z.mod_1_r, Z.div_1_r. reflexivity.
Qed.

Lemma round_half_even_le (n d : Z) :
  0 ≤ n → 2 ≤ d → 0 ≤ Binary64.round_half_even n d ≤ n.
Proof.
  intros Hn Hd. unfold Binary64.round_half_even.
  pose proof (Z.div_mod n d ltac:(lia)) as Hdiv.
  pose proof (Z.mod_pos_bound n d ltac:(lia)) as Hmod.
  pose proof (Z.div_pos n d Hn ltac:(lia)) as Hq.
  destruct (Z.compare_spec (2 * (n mod d)) d) as [Heq|Hlt|Hgt];
    [destruct (Z.even (n / d))| |]; nia.
Qed.

Lemma of_ratio_exact (sx : bool) (m : positive) (e : Z) (d : positive) :
  bounded 53 1024 m e = true → 0 ≤ e →
  Binary64.of_ratio sx (Z.to_N (Z.pos m * 2 ^ e * Z.pos d)) d = S754_finite sx m e.
Proof.
  intros Hb He.
  assert (Hpow : 0 < 2 ^ e) by (apply Z.pow_pos_nonneg; lia).
  destruct (Z.pos m * 2 ^ e * Z.pos d) as [|p|p] eqn:E; [lia| |lia].
  cbn [Z.to_N Binary64.of_ratio]. unfold Binary64.prec, Binary64.emax.
  destruct (SFdiv_core_binary_spec p d) as (s & Hs & ->).
  rewrite <- E.
  replace (Z.pos m * 2 ^ e * Z.pos d * 2 ^ s) with (Z.pos m * 2 ^ (e + s) * Z.pos d)
    by (rewrite Z.pow_add_r by lia; lia).
  rewrite Z.mod_mul, Z.div_mul by lia.
  replace (- s) with (e - (e + s)) by lia.
  assert (Hloc : new_location (Z.pos d) 0 = loc_Exact).
  { unfold new_location, new_location_even, new_location_odd.
    by destruct (Z.even (Z.pos d)). }
  rewrite Hloc. apply binary_round_aux_exact; [done|lia].
Qed.

Lemma of_ratio_small (sx : bool) (k : N) (d : positive) :
  (Z.of_N k < 2 ^ 1000) →
  Binary64.is_infinite (Binary64.of_ratio sx k d) = false.
Proof.
  intros Hk. destruct k as [|p]; [done|]. cbn [Binary64.of_ratio].
  unfold Binary64.prec, Binary64.emax.
  destruct (SFdiv_core_binary_spec p d) as (s & Hs & ->).
  apply binary_round_aux_small with (B := 1000); [|lia|lia|].
  - apply Z.div_pos; [|lia]. apply Z.mul_nonneg_nonneg; [lia|]. apply Z.pow_nonneg. lia.
  - assert (0 < 2 ^ s) by (apply Z.pow_pos_nonneg; lia).
    apply Z.le_lt_trans with (Z.pos p * 2 ^ s).
    + apply Z.div_le_upper_bound; [lia|]. nia.
    + replace (1000 - - s) with (1000 + s) by lia. rewrite Z.pow_add_r by lia.
      simpl Z.of_N in Hk. nia.
Qed.

Lemma bounded_lt_pow (m : positive) (e : Z) :
  bounded 53 1024 m e = true → Z.pos m < 2 ^ 53.
Proof.
  intros Hb. unfold bounded, canonical_mantissa in Hb.
  apply andb_true_iff in Hb as [Hc _]. apply Z.eqb_eq in Hc.
  unfold fexp in Hc. pose proof (digits2_pos_bounds m) as [_ Hhi].
  assert (Z.pos (digits2_pos m) ≤ 53) by lia.
  apply Z.lt_le_trans with (2 ^ Z.pos (digits2_pos m)); [done|].
  apply Z.pow_le_mono_r; lia.
Qed.

(** A binary64 number without fractional bits is its own rounding. *)
Lemma float_round_2_integral (s : bool) (m : positive) (e : Z) :
  bounded 53 1024 m e = true → 0 ≤ e →
  Binary64.float_round (S754_finite s m e) 2 = Some (S754_finite s m e).
Proof.
  intros Hb He. unfold Binary64.float_round. cbn [Binary64.is_finite negb].
  change (Binary64.NDIGITS_MAX <? 2) with false.
  change (2 <? Binary64.NDIGITS_MIN) with false. cbv iota.
  unfold Binary64.double_round, Binary64.of_decimal.
  change (- (2)) with (Z.neg 2). cbv iota. change (10 ^ 2)%positive with 100%positive.
  unfold Binary64.dtoa_fixed. cbv iota. cbn [Binary64.sign].
  assert (Hmag : Binary64.magnitude (S754_finite s m e) = (Z.pos m * 2 ^ e, 1))
    by (destruct e; [done|done|lia]).
  rewrite Hmag, round_half_even_1. change (10 ^ 2) with (Z.pos 100).
  by rewrite (of_ratio_exact s m e 100 Hb He).
Qed.

(** [round(x, 2)] returns for every binary64 number. *)
Lemma float_round_2_returns (x : float) :
  Binary64.valid x = true → ∃ r, Binary64.float_round x 2 = Some r.
Proof.
  unfold Binary64.valid, Binary64.prec, Binary64.emax. intros Hv.
  destruct x as [s|s| |s m e]; [by eexists..|].
  cbn [valid_binary] in Hv.
  destruct (Z.le_gt_cases 0 e) as [He|He];
    [eexists; by apply float_round_2_integral|].
  destruct e as [|pe|pe]; [lia|lia|].
  unfold Binary64.float_round. cbn [Binary64.is_finite negb].
  change (Binary64.NDIGITS_MAX <? 2) with false.
  change (2 <? Binary64.NDIGITS_MIN) with false. cbv iota.
  unfold Binary64.double_round, Binary64.of_decimal.
  change (- (2)) with (Z.neg 2). cbv iota. change (10 ^ 2)%positive with 100%positive.
  unfold Binary64.dtoa_fixed. cbv iota. cbn [Binary64.sign Binary64.magnitude].
  rewrite of_ratio_small; [by eexists|].
  pose proof (bounded_lt_pow m _ Hv) as Hm.
  assert (Hd : 2 ≤ Z.pos (2 ^ pe)).
  { rewrite Pos2Z.inj_pow. change 2 with (2 ^ 1) at 1.
    apply Z.pow_le_mono_r; lia. }
  pose proof (round_half_even_le (Z.pos m * 10 ^ 2) (Z.pos (2 ^ pe)) ltac:(lia) Hd) as Hk.
  rewrite Z2N.id by lia.
  apply Z.le_lt_trans with (Z.pos m * 10 ^ 2); [lia|].
  apply Z.lt_le_trans with (2 ^ 53 * 10 ^ 2); [lia|]. by vm_compute.
Qed.

Lemma py_round_2_returns (x : float) :
  Binary64.valid x = true → ∃ r, py_round x 2 = Ok r.
Proof.
  intros Hv. destruct (float_round_2_returns x Hv) as [r Hr].
  exists r. unfold py_round. by rewrite Hr.
Qed.

End Rounding.

Lemma check_required_Ok data :
  check_required data required_fields = Ok tt → has_required data.
Proof.
  rewrite check_required_find.
  destruct (list_find _ _) as [[i f]|] eqn:E; [done|]. intros _ f Hf.
  apply list_find_None in E. rewrite Forall_forall in E.
  specialize (E f Hf). by destruct (data !! f).
Qed.

(** The handler returns exactly when every stage does. *)
Lemma predict_Ok_inv lib model data response :
  predict lib model data = Ok response →
  ∃ features frame predictions price rounded,
    validated data features ∧
    input_data lib model features = Ok frame ∧
    model_predict model frame = Ok (price :: predictions) ∧
    py_round price 2 = Ok rounded ∧
    response = [("predicted_price", PFloat rounded)].
Proof.
  unfold predict. destruct (predict_body lib model data) as [r|e] eqn:Hbody; [|done].
  intros [= ->]. unfold predict_body in Hbody.
  apply bind_Ok_inv in Hbody as ([] & Hreq%check_required_Ok & Hbody).
  apply bind_Ok_inv in Hbody as (cargo_type & Hc & Hbody).
  unfold py_getitem in Hc. destruct (data !! "cargo_type") as [v|] eqn:Hv; [|done].
  injection Hc as ->.
  destruct (py_in cargo_type cargo_types) eqn:Hin; [|done]. cbn [negb] in Hbody.
  apply bind_Ok_inv in Hbody as (features & Henc & Hbody).
  apply bind_Ok_inv in Hbody as (frame & Hframe & Hbody).
  unfold predict_frame in Hbody.
  apply bind_Ok_inv in Hbody as (price & Hprice & Hbody).
  apply bind_Ok_inv in Hprice as (predictions & Hpred & Hfirst).
  apply bind_Ok_inv in Hbody as (rounded & Hround & Hbody).
  injection Hbody as <-.
  destruct predictions as [|p predictions]; [done|]. injection Hfirst as ->.
  exists features, frame, predictions, price, rounded.
  split_and!; try done. split; [done|]. by exists cargo_type.
Qed.

Lemma predict_done lib model data features frame predictions price rounded :
  validated data features →
  input_data lib model features = Ok frame →
  model_predict model frame = Ok (price :: predictions) →
  py_round price 2 = Ok rounded →
  predict lib model data = Ok [("predicted_price", PFloat rounded)].
Proof.
  intros Hval Hframe Hpred Hround. rewrite (predict_validated lib model data features Hval).
  rewrite Hframe. simpl. unfold predict_frame. rewrite Hpred. simpl. by rewrite Hround.
Qed.

(** A validated request whose features align and for which the model
    gives a binary64 price is answered with that price, rounded. *)
Lemma predict_returns lib model data features frame predictions price :
  validated data features →
  input_data lib model features = Ok frame →
  model_predict model frame = Ok (price :: predictions) →
  Binary64.valid price = true →
  ∃ rounded, nearest_hundredth price rounded ∧
    predict lib model data = Ok [("predicted_price", PFloat rounded)].
Proof.
  intros Hval Hframe Hpred Hv. destruct (py_round_2_returns price Hv) as [rounded Hr].
  exists rounded. split; [by apply py_round_2_nearest|].
  by apply (predict_done lib model data features frame predictions price rounded).
Qed.

(** C6.  When the handler returns a response, its one entry is
    [predicted_price], and its value is [round(price, 2)] for the price
    the model gave for the one aligned row: for a finite price, the
    binary64 number nearest to the decimal with two places nearest to the
    price. *)
Theorem C6_price_rounded_to_two_places
    (lib : Libraries) (model : Model) (data : gmap string pyval)
    (response : list (string * pyval)) :
  predict lib model data = Ok response →
  ∃ features frame predictions price rounded,
    validated data features ∧
    input_data lib model features = Ok frame ∧
    model_predict model frame = Ok (price :: predictions) ∧
    py_round price 2 = Ok rounded ∧
    nearest_hundredth price rounded ∧
    response = [("predicted_price", PFloat rounded)].
Proof.
  intros H.
  apply predict_Ok_inv in H
    as (features & frame & predictions & price & rounded & Hv & Hf & Hp & Hr & ->).
  exists features, frame, predictions, price, rounded.
  split_and!; try done. by apply py_round_2_nearest.
Qed.

(** The worked example: a model output of 123.4567 yields 123.46. *)
Example round_123_4567 : py_round Sample.price_123_4567 2 = Ok Sample.price_123_46.
Proof. vm_compute. reflexivity. Qed.

Example predict_fragile_request :
  predict Sample.libraries Sample.regressor Sample.fragile_request
  = Ok [("predicted_price", PFloat Sample.price_123_46)].
Proof. vm_compute. reflexivity. Qed.

Lemma C6_fragile_request_rounded :
  ∃ features frame predictions price rounded,
    validated Sample.fragile_request features ∧
    input_data Sample.libraries Sample.regressor features = Ok frame ∧
    model_predict Sample.regressor frame = Ok (price :: predictions) ∧
    py_round price 2 = Ok rounded ∧
    nearest_hundredth price rounded ∧
    [("predicted_price", PFloat Sample.price_123_46)]
    = [("predicted_price", PFloat rounded)].
Proof.
  apply (C6_price_rounded_to_two_places Sample.libraries Sample.regressor
           Sample.fragile_request).
  vm_compute. reflexivity.
Defined.

(** ** Claims on failures after validation and on error texts *)

Lemma input_data_missing lib model features name :
  name ∈ feature_names model → name ∉ features.*1 →
  ∃ missing, name ∈ missing ∧
    input_data lib model features
    = Raise (KeyError (missing_columns_str lib (feature_names model) missing)).
Proof.
  intros Hin Hnot. unfold input_data, df_getitem.
  destruct (filter _ (feature_names model)) as [|m missing] eqn:E.
  - exfalso. eapply (not_elem_of_nil name). rewrite <- E.
    apply list_elem_of_filter. done.
  - exists (m :: missing). split; [|done]. rewrite <- E.
    apply list_elem_of_filter. done.
Qed.

Lemma predict_model_raises lib model data features frame e :
  validated data features →
  input_data lib model features = Ok frame →
  model_predict model frame = Raise e →
  predict lib model data = Raise (handle lib e).
Proof.
  intros Hval Hframe Hraise. rewrite (predict_validated lib model data features Hval).
  rewrite Hframe. simpl. unfold predict_frame. by rewrite Hraise.
Qed.

(** C7 (as amended).  For a validated request, a feature name of the
    model that the encoded feature map lacks is answered with status 500;
    an exception of the model that is an [Exception] but no [ValueError]
    is answered with status 500 and its text; a [ValueError] of the model
    is answered with status 422 and an "Invalid input format" detail. *)
Theorem C7_failures_after_validation
    (lib : Libraries) (model : Model) (data : gmap string pyval)
    (features : list (string * pyval)) :
  validated data features →
  ((∃ name, name ∈ feature_names model ∧ name ∉ features.*1) →
   ∃ missing,
     predict lib model data
     = Raise (HTTPException 500 (missing_columns_str lib (feature_names model) missing))) ∧
  (∀ frame e,
     input_data lib model features = Ok frame →
     model_predict model frame = Raise e →
     (isinstance e "ValueError" = false → isinstance e "Exception" = true →
      predict lib model data = Raise (HTTPException 500 (str_exn lib e))) ∧
     (isinstance e "ValueError" = true →
      predict lib model data
      = Raise (HTTPException 422 ("Invalid input format: " +:+ str_exn lib e)))).
Proof.
  intros Hval. split.
  - intros (name & Hin & Hnot).
    destruct (input_data_missing lib model features name Hin Hnot) as (missing & _ & Hraise).
    eexists. rewrite (predict_validated lib model data features Hval), Hraise. reflexivity.
  - intros frame e Hframe Hraise.
    rewrite (predict_model_raises lib model data features frame e Hval Hframe Hraise).
    split.
    + intros Hv He. by rewrite handle_other_Exception.
    + intros Hv. by rewrite handle_ValueError.
Qed.

Lemma fragile_request_validated :
  validated Sample.fragile_request
    [("distance_km", PFloat (Binary64.of_Z 500));
     ("weight_kg", PFloat (Binary64.of_Z 2000));
     ("urgency_days", PFloat (Binary64.of_Z 5));
     ("cargo_type_perishable", PInt 0);
     ("cargo_type_fragile", PInt 1);
     ("cargo_type_general", PInt 0)].
Proof.
  split; [solve_has_required|]. exists (PStr "fragile"). split_and!; reflexivity.
Defined.

Lemma C7_broken_and_drifted_regressor :
  (∃ missing,
     predict Sample.libraries Sample.drifted_regressor Sample.fragile_request
     = Raise (HTTPException 500
                (missing_columns_str Sample.libraries
                   (feature_names Sample.drifted_regressor) missing))) ∧
  predict Sample.libraries Sample.broken_regressor Sample.fragile_request
  = Raise (HTTPException 500 "out of memory").
Proof.
  split.
  - apply (C7_failures_after_validation Sample.libraries Sample.drifted_regressor
             Sample.fragile_request _ fragile_request_validated).
    exists "cargo_type_hazardous". split; apply (bool_decide_unpack _); reflexivity.
  - edestruct (proj2 (C7_failures_after_validation Sample.libraries Sample.broken_regressor
                         Sample.fragile_request _ fragile_request_validated))
      as [H _]; [reflexivity|reflexivity|].
    apply H; reflexivity.
Defined.

(** C7, as stated, fails: the fitted regressor refuses a NaN with a
    [ValueError]; the request below passes validation, since
    [float("nan")] converts, and the failure of the model is answered
    with status 422. *)
Lemma C7_model_ValueError_answered_422 :
  (∃ features frame e,
     validated Sample.nan_request features ∧
     input_data Sample.libraries Sample.regressor features = Ok frame ∧
     model_predict Sample.regressor frame = Raise e) ∧
  predict Sample.libraries Sample.regressor Sample.nan_request
  = Raise (HTTPException 422 "Invalid input format: Input X contains NaN.") ∧
  error_status (predict Sample.libraries Sample.regressor Sample.nan_request) ≠ Some 500%Z.
Proof.
  split; [|split; [reflexivity|discriminate]].
  eexists _, _, _. split.
  - split; [solve_has_required|]. exists (PStr "fragile"). split_and!; reflexivity.
  - split; reflexivity.
Qed.

Lemma prefix_same (s : string) : String.prefix s s = true.
Proof.
  induction s as [|a s IH]; [done|]. cbn [String.prefix].
  by destruct (Ascii.ascii_dec a a).
Qed.

(** A text is found in any text that ends with it. *)
Lemma contains_at_end (before s : string) : PyStr.contains s (before +:+ s) = true.
Proof.
  induction before as [|a before IH].
  - cbn [String.app]. pose proof (prefix_same s) as Hs.
    destruct s as [|b s]; [reflexivity|].
    change (String.prefix (String b s) (String b s) || PyStr.contains (String b s) s = true).
    by rewrite Hs.
  - change (String.prefix s (String a (before +:+ s)) || PyStr.contains s (before +:+ s)
            = true).
    rewrite IH. apply orb_true_r.
Qed.

(** C8 (as amended).  Every client-input error the handler raises
    carries a readable message: the missing-field error, of status 422,
    names the absent field; the invalid-cargo error, of status 422, names
    [cargo_type] and lists the allowed values; and when the conversion of
    a string value of a numeric field fails, the response has status 422
    and the detail "Invalid input format: could not convert string to
    float: " followed by the [repr] of the value: this detail quotes the
    offending value, whichever field holds it. *)
Theorem C8_client_error_messages
    (lib : Libraries) (model : Model) (data : gmap string pyval) :
  (∀ field, first_missing data = Some field →
     predict_body lib model data
     = Raise (HTTPException 422 ("Missing required field: " +:+ field)) ∧
     PyStr.contains field ("Missing required field: " +:+ field) = true) ∧
  (∀ cargo_type,
     has_required data → data !! "cargo_type" = Some cargo_type →
     py_in cargo_type cargo_types = false →
     predict_body lib model data
     = Raise (HTTPException 422
                "Invalid cargo_type. Must be one of: ['general', 'fragile', 'perishable']") ∧
     PyStr.contains "cargo_type"
       "Invalid cargo_type. Must be one of: ['general', 'fragile', 'perishable']" = true) ∧
  (∀ cargo_type field s e,
     has_required data → data !! "cargo_type" = Some cargo_type →
     py_in cargo_type cargo_types = true →
     coercion_raises data field (PStr s) e →
     predict lib model data
     = Raise (HTTPException 422
                ("Invalid input format: could not convert string to float: "
                 +:+ PyStr.repr s))).
Proof.
  split_and!.
  - intros field Hfirst. split; [by apply predict_body_missing|apply contains_at_end].
  - intros cargo_type Hreq Hc Hin. split; [|reflexivity].
    by rewrite (predict_body_present lib model data cargo_type Hreq Hc), Hin.
  - intros cargo_type field s e Hreq Hc Hin Hraise.
    by apply (predict_unparsable_string lib model data cargo_type field s e).
Qed.

Lemma C8_abc_distance_detail :
  (predict_body Sample.libraries Sample.regressor (delete "weight_kg" Sample.abc_request)
   = Raise (HTTPException 422 ("Missing required field: " +:+ "weight_kg")) ∧
   PyStr.contains "weight_kg" ("Missing required field: " +:+ "weight_kg") = true) ∧
  predict Sample.libraries Sample.regressor Sample.abc_request
  = Raise (HTTPException 422
             ("Invalid input format: could not convert string to float: "
              +:+ PyStr.repr "abc")).
Proof.
  split.
  - apply (proj1 (C8_client_error_messages Sample.libraries Sample.regressor
                    (delete "weight_kg" Sample.abc_request))).
    reflexivity.
  - eapply (proj2 (proj2 (C8_client_error_messages Sample.libraries Sample.regressor
                            Sample.abc_request))).
    + solve_has_required.
    + reflexivity.
    + reflexivity.
    + apply raises_distance; reflexivity.
Defined.

(** C8, as stated, fails: the detail for the distance "abc" does not
    name the field [distance_km]. *)
Lemma C8_format_detail_lacks_field_name :
  coercion_raises Sample.abc_request "distance_km" (PStr "abc")
    (ValueError "could not convert string to float: 'abc'") ∧
  error_status (predict Sample.libraries Sample.regressor Sample.abc_request)
  = Some 422%Z ∧
  error_detail (predict Sample.libraries Sample.regressor Sample.abc_request)
  = Some "Invalid input format: could not convert string to float: 'abc'" ∧
  PyStr.contains "distance_km"
    "Invalid input format: could not convert string to float: 'abc'" = false.
Proof. split_and!; try reflexivity. by apply raises_distance. Qed.

(** ** Claim on the keys the handler reads *)

Lemma check_required_ext d1 d2 fields :
  (∀ f, f ∈ fields → d1 !! f = d2 !! f) →
  check_required d1 fields = check_required d2 fields.
Proof.
  induction fields as [|f fields IH]; intros H; [done|].
  cbn [check_required]. rewrite (H f) by set_solver.
  rewrite IH; [done|]. intros g Hg. apply H. set_solver.
Qed.

Lemma encode_features_ext d1 d2 cargo_type :
  (∀ f, f ∈ required_fields → d1 !! f = d2 !! f) →
  encode_features d1 cargo_type = encode_features d2 cargo_type.
Proof.
  intros H. unfold encode_features, py_getitem.
  rewrite !(H "distance_km"), !(H "weight_kg"), !(H "urgency_days");
    [done|unfold required_fields; set_solver..].
Qed.

(** C10.  Two requests that agree on the four required keys, each
    being absent from both or bound to the same value in both, get the
    same answer from the same model, whatever else they hold. *)
Theorem C10_extra_keys_are_ignored
    (lib : Libraries) (model : Model) (d1 d2 : gmap string pyval) :
  (∀ f, f ∈ required_fields → d1 !! f = d2 !! f) →
  predict lib model d1 = predict lib model d2.
Proof.
  intros H. unfold predict, predict_body.
  rewrite (check_required_ext d1 d2 required_fields H).
  unfold py_getitem. rewrite (H "cargo_type") by (unfold required_fields; set_solver).
  destruct (check_required d2 required_fields); [|done]. simpl.
  destruct (d2 !! "cargo_type") as [cargo_type|]; [|done]. simpl.
  by rewrite (encode_features_ext d1 d2 cargo_type H).
Qed.

Lemma C10_extra_key_same_answer :
  predict Sample.libraries Sample.regressor
    (<["priority" := PStr "high"]> Sample.fragile_request)
  = predict Sample.libraries Sample.regressor Sample.fragile_request.
Proof.
  apply C10_extra_keys_are_ignored.
  intros f Hf. unfold required_fields in Hf.
  repeat (apply elem_of_cons in Hf as [->|Hf]; [reflexivity|]).
  by apply elem_of_nil in Hf.
Defined.

(** * Further properties of the handler and of the training script *)

(** ** Column selection *)

Lemma filter_absent_nil (cols names : list string) :
  (∀ n, n ∈ names → n ∈ cols) → filter (fun n => n ∉ cols) names = [].
Proof.
  intros H. induction names as [|n names IH]; [done|].
  rewrite filter_cons. destruct (decide (n ∉ cols)) as [Hn|_].
  - destruct Hn. apply H. by left.
  - apply IH. intros m Hm. apply H. by right.
Qed.

(** The cell of a record's row under one of its keys. *)
Lemma cell_of_record (record : list (string * pyval)) (name : string) :
  name ∈ record.*1 →
  ∃ v, cell record.*1 record.*2 name = Some v ∧ (name, v) ∈ record.
Proof.
  intros Hin. unfold cell.
  destruct (list_find (fun c => c = name) record.*1) as [[i c]|] eqn:E.
  - apply list_find_Some in E as (Hi & -> & _).
    rewrite list_lookup_fmap in Hi.
    destruct (record !! i) as [[k v]|] eqn:Hr; [|done].
    injection Hi as ->. exists v. simpl. rewrite list_lookup_fmap, Hr.
    split; [done|]. by eapply list_elem_of_lookup_2.
  - apply list_find_None in E. rewrite Forall_forall in E. by destruct (E name Hin).
Qed.

Lemma select_of_record (record : list (string * pyval)) (names : list string) :
  (∀ n, n ∈ names → n ∈ record.*1) →
  ∃ row, omap (cell record.*1 record.*2) names = row ∧
         Forall2 (fun n v => (n, v) ∈ record) names row.
Proof.
  induction names as [|n names IH]; intros H.
  - exists []. split; [done|constructor].
  - destruct IH as (row & Hrow & Hall); [intros m Hm; apply H; by right|].
    destruct (cell_of_record record n) as (v & Hv & Hin); [apply H; by left|].
    exists (v :: row). split; [|by constructor].
    subst row. simpl. by rewrite Hv.
Qed.

Lemma df_getitem_of_record
    (lib : Libraries) (record : list (string * pyval)) (names : list string) :
  (∀ n, n ∈ names → n ∈ record.*1) →
  ∃ row, df_getitem lib (DataFrame_of_record record) names
         = Ok {| columns := names; rows := [row] |} ∧
         Forall2 (fun n v => (n, v) ∈ record) names row.
Proof.
  intros H. destruct (select_of_record record names H) as (row & Hrow & Hall).
  exists row. split; [|done].
  unfold df_getitem, DataFrame_of_record. cbn [columns rows].
  rewrite filter_absent_nil by done. cbn [map]. by rewrite Hrow.
Qed.

(** X1.  Selecting columns of the one-row frame of a record by a list of
    names that are all keys of the record returns a frame with exactly
    these columns, in the order asked for, and one row with one cell per
    name, holding a value the record binds to that name; keys that are
    not asked for are dropped and a name asked for twice is given twice. *)
Theorem X1_column_selection_of_a_record
    (lib : Libraries) (record : list (string * pyval)) (names : list string) :
  (∀ n, n ∈ names → n ∈ record.*1) →
  ∃ row, df_getitem lib (DataFrame_of_record record) names
         = Ok {| columns := names; rows := [row] |} ∧
         Forall2 (fun n v => (n, v) ∈ record) names row.
Proof. apply df_getitem_of_record. Qed.

Lemma X1_two_of_three_columns :
  ∃ row, df_getitem Sample.libraries
           (DataFrame_of_record [("a", PInt 1); ("b", PInt 2); ("c", PInt 3)]) ["c"; "a"; "c"]
         = Ok {| columns := ["c"; "a"; "c"]; rows := [row] |} ∧
         Forall2 (fun n v => (n, v) ∈ [("a", PInt 1); ("b", PInt 2); ("c", PInt 3)])
           ["c"; "a"; "c"] row.
Proof.
  apply X1_column_selection_of_a_record.
  intros n Hn. apply (bool_decide_unpack _).
  repeat (apply elem_of_cons in Hn as [->|Hn]; [reflexivity|]).
  by apply elem_of_nil in Hn.
Defined.

(** ** The columns of the training script *)

Lemma insert_level_pick (x : string) (f g p : bool) :
  x ∈ Train.cargo_choices →
  Train.insert_level x (pick f g p)
  = pick (f || String.eqb x "fragile") (g || String.eqb x "general")
         (p || String.eqb x "perishable").
Proof.
  intros Hx. unfold Train.cargo_choices in Hx.
  repeat (apply elem_of_cons in Hx as [->|Hx]);
    try (by apply elem_of_nil in Hx); by destruct f, g, p.
Qed.

Lemma levels_pick (values : list string) :
  Forall (fun v => v ∈ Train.cargo_choices) values →
  Train.levels values
  = pick (bool_decide ("fragile" ∈ values)) (bool_decide ("general" ∈ values))
         (bool_decide ("perishable" ∈ values)).
Proof.
  induction 1 as [|x values Hx _ IH]; [done|].
  unfold Train.levels in *. cbn [foldr]. rewrite IH, insert_level_pick by done.
  f_equal; apply eq_true_iff_eq;
    rewrite orb_true_iff, !bool_decide_eq_true, String.eqb_eq, elem_of_cons;
    (split; intros [H|H]; subst; auto).
Qed.

Lemma drop_price_of_dummies (levels : list string) :
  filter (fun c => c ≠ "price_usd") (map (fun level => "cargo_type" +:+ "_" +:+ level) levels)
  = map (fun level => "cargo_type_" +:+ level) levels.
Proof.
  induction levels as [|l levels IH]; [done|].
  cbn [map]. rewrite filter_cons, IH.
  destruct (decide _) as [_|Hne]; [done|]. by destruct Hne.
Qed.

Lemma fitted_feature_names_eq (values : list string) :
  Train.fitted_feature_names values
  = Some (["distance_km"; "weight_kg"; "urgency_days"]
          ++ map (fun level => "cargo_type_" +:+ level) (Train.levels values)).
Proof.
  unfold Train.fitted_feature_names, Train.get_dummies.
  change (Train.drop "cargo_type" Train.sample_columns)
    with (Some ["distance_km"; "weight_kg"; "urgency_days"; "price_usd"]).
  cbn [mbind option_bind]. unfold Train.drop.
  rewrite bool_decide_eq_true_2 by (rewrite elem_of_app; left; set_solver).
  rewrite filter_app, drop_price_of_dummies. done.
Qed.

(** X2.  Whatever the cargo types of the sample are, the model is fitted
    on the three numeric columns in the order distance, weight, urgency,
    followed by the indicator columns of the cargo type, one per level
    and named [cargo_type_] and the level; the price it is fitted to
    predict and the raw cargo type are not among its columns. *)
Theorem X2_fitted_columns (cargo_type : list string) :
  ∃ names,
    Train.fitted_feature_names cargo_type = Some names ∧
    names = (["distance_km"; "weight_kg"; "urgency_days"]
             ++ map (fun level => "cargo_type_" +:+ level) (Train.levels cargo_type)) ∧
    ("price_usd" ∉ names) ∧ ("cargo_type" ∉ names).
Proof.
  eexists. split; [apply fitted_feature_names_eq|]. split; [done|].
  split; intros [Hin|Hin]%elem_of_app.
  - repeat (apply elem_of_cons in Hin as [Hin|Hin]; [discriminate Hin|]).
    by apply elem_of_nil in Hin.
  - apply list_elem_of_fmap in Hin as (l & Heq & _). discriminate Heq.
  - repeat (apply elem_of_cons in Hin as [Hin|Hin]; [discriminate Hin|]).
    by apply elem_of_nil in Hin.
  - apply list_elem_of_fmap in Hin as (l & Heq & _). discriminate Heq.
Qed.

Lemma fitted_names_encoded (cargo_type : list string) :
  Forall (fun v => v ∈ Train.cargo_choices) cargo_type →
  ∃ names, Train.fitted_feature_names cargo_type = Some names ∧
    ∀ n, n ∈ names →
         n ∈ ["distance_km"; "weight_kg"; "urgency_days";
              "cargo_type_perishable"; "cargo_type_fragile"; "cargo_type_general"].
Proof.
  intros Hall. eexists. split; [apply fitted_feature_names_eq|].
  rewrite (levels_pick cargo_type Hall). intros n Hn.
  destruct (bool_decide _), (bool_decide _), (bool_decide _); cbn in Hn;
    repeat (apply elem_of_cons in Hn as [->|Hn];
            [apply (bool_decide_unpack _); reflexivity|]);
    by apply elem_of_nil in Hn.
Qed.

(** X3.  For a sample whose cargo types are drawn from the three choices
    of the script, the indicator columns are those of the choices that
    occur, in the order fragile, general, perishable; when all three
    occur the columns are the six of [trained_feature_names], and in
    every case each column is a name the handler encodes. *)
Theorem X3_fitted_columns_of_the_choices (cargo_type : list string) :
  Forall (fun v => v ∈ Train.cargo_choices) cargo_type →
  ∃ names,
    Train.fitted_feature_names cargo_type = Some names ∧
    names = (["distance_km"; "weight_kg"; "urgency_days"]
             ++ map (fun level => "cargo_type_" +:+ level)
                  (pick (bool_decide ("fragile" ∈ cargo_type))
                        (bool_decide ("general" ∈ cargo_type))
                        (bool_decide ("perishable" ∈ cargo_type)))) ∧
    (("fragile" ∈ cargo_type ∧ "general" ∈ cargo_type ∧ "perishable" ∈ cargo_type) →
     names = trained_feature_names) ∧
    (∀ n, n ∈ names →
          n ∈ ["distance_km"; "weight_kg"; "urgency_days";
               "cargo_type_perishable"; "cargo_type_fragile"; "cargo_type_general"]).
Proof.
  intros Hall. eexists. split; [apply fitted_feature_names_eq|].
  rewrite (levels_pick cargo_type Hall). split; [done|]. split.
  - intros (Hf & Hg & Hp). by rewrite !bool_decide_eq_true_2.
  - intros n Hn.
    destruct (bool_decide _), (bool_decide _), (bool_decide _); cbn in Hn;
      repeat (apply elem_of_cons in Hn as [->|Hn];
              [apply (bool_decide_unpack _); reflexivity|]);
      by apply elem_of_nil in Hn.
Qed.

Lemma X3_sample_with_two_cargo_types :
  ∃ names,
    Train.fitted_feature_names ["general"; "perishable"; "general"] = Some names ∧
    names = (["distance_km"; "weight_kg"; "urgency_days"]
             ++ map (fun level => "cargo_type_" +:+ level)
                  (pick (bool_decide ("fragile" ∈ ["general"; "perishable"; "general"]))
                        (bool_decide ("general" ∈ ["general"; "perishable"; "general"]))
                        (bool_decide ("perishable" ∈ ["general"; "perishable"; "general"])))) ∧
    (("fragile" ∈ ["general"; "perishable"; "general"] ∧
      "general" ∈ ["general"; "perishable"; "general"] ∧
      "perishable" ∈ ["general"; "perishable"; "general"]) →
     names = trained_feature_names) ∧
    (∀ n, n ∈ names →
          n ∈ ["distance_km"; "weight_kg"; "urgency_days";
               "cargo_type_perishable"; "cargo_type_fragile"; "cargo_type_general"]).
Proof.
  apply X3_fitted_columns_of_the_choices.
  apply (bool_decide_unpack _). reflexivity.
Defined.

(** ** The handler on a model fitted by the training script *)

Lemma encode_features_Ok_inv data cargo_type features :
  encode_features data cargo_type = Ok features →
  ∃ v0 v1 v2 x0 x1 x2,
    data !! "distance_km" = Some v0 ∧ py_float v0 = Ok x0 ∧
    data !! "weight_kg" = Some v1 ∧ py_float v1 = Ok x1 ∧
    data !! "urgency_days" = Some v2 ∧ py_float v2 = Ok x2 ∧
    features = [("distance_km", PFloat x0); ("weight_kg", PFloat x1);
                ("urgency_days", PFloat x2);
                ("cargo_type_perishable", flag cargo_type "perishable");
                ("cargo_type_fragile", flag cargo_type "fragile");
                ("cargo_type_general", flag cargo_type "general")].
Proof.
  unfold encode_features, py_getitem. intros H.
  destruct (data !! "distance_km") as [v0|]; [|done]. simpl in H.
  destruct (py_float v0) as [x0|] eqn:E0; [|done]. simpl in H.
  destruct (data !! "weight_kg") as [v1|]; [|done]. simpl in H.
  destruct (py_float v1) as [x1|] eqn:E1; [|done]. simpl in H.
  destruct (data !! "urgency_days") as [v2|]; [|done]. simpl in H.
  destruct (py_float v2) as [x2|] eqn:E2; [|done]. simpl in H.
  injection H as <-. by exists v0, v1, v2, x0, x1, x2.
Qed.

Lemma validated_keys data features :
  validated data features →
  features.*1 = ["distance_km"; "weight_kg"; "urgency_days";
                 "cargo_type_perishable"; "cargo_type_fragile"; "cargo_type_general"].
Proof.
  intros (_ & c & _ & _ & Henc).
  apply encode_features_Ok_inv in Henc as (? & ? & ? & ? & ? & ? & _ & _ & _ & _ & _ & _ & ->).
  reflexivity.
Qed.

(** X4.  With a model fitted by the training script on any sample of the
    three cargo types, the column selection never fails for a validated
    request: the frame handed to the model has the fitted columns and one
    row that holds, under each column, the value the handler encoded
    under that name.  When the three cargo types all occur in the sample,
    the row is distance, weight, urgency, then the fragile, general and
    perishable flags, which is not the order in which the handler wrote
    them. *)
Theorem X4_alignment_with_a_fitted_model
    (lib : Libraries) (f : DataFrame → res (list float)) (cargo_type : list string)
    (names : list string) (data : gmap string pyval) (features : list (string * pyval)) :
  Forall (fun v => v ∈ Train.cargo_choices) cargo_type →
  Train.fitted_feature_names cargo_type = Some names →
  validated data features →
  ∃ row,
    input_data lib {| feature_names_in_ := names; model_predict := f |} features
    = Ok {| columns := names; rows := [row] |} ∧
    Forall2 (fun n v => (n, v) ∈ features) names row ∧
    (names = trained_feature_names →
     ∃ c x0 x1 x2,
       data !! "cargo_type" = Some c ∧
       features = [("distance_km", PFloat x0); ("weight_kg", PFloat x1);
                   ("urgency_days", PFloat x2);
                   ("cargo_type_perishable", flag c "perishable");
                   ("cargo_type_fragile", flag c "fragile");
                   ("cargo_type_general", flag c "general")] ∧
       row = [PFloat x0; PFloat x1; PFloat x2;
              flag c "fragile"; flag c "general"; flag c "perishable"]).
Proof.
  intros Hall Hfit Hval.
  destruct (fitted_names_encoded cargo_type Hall) as (names' & Hfit' & Hsub).
  rewrite Hfit in Hfit'. injection Hfit' as <-.
  pose proof (validated_keys data features Hval) as Hkeys.
  destruct (df_getitem_of_record lib features names) as (row & Hrow & Hrel).
  { intros n Hn. rewrite Hkeys. by apply Hsub. }
  unfold input_data, feature_names. cbn [feature_names_in_].
  exists row. split; [exact Hrow|]. split; [exact Hrel|]. intros ->.
  destruct Hval as (_ & c & Hc & _ & Henc).
  apply encode_features_Ok_inv in Henc
    as (v0 & v1 & v2 & x0 & x1 & x2 & _ & _ & _ & _ & _ & _ & ->).
  exists c, x0, x1, x2. split; [done|]. split; [done|].
  cbn in Hrow. by injection Hrow as <-.
Qed.

Lemma X4_fragile_request_on_a_fitted_model :
  ∃ row,
    input_data Sample.libraries
      {| feature_names_in_ := trained_feature_names;
         model_predict := model_predict Sample.regressor |}
      [("distance_km", PFloat (Binary64.of_Z 500));
       ("weight_kg", PFloat (Binary64.of_Z 2000));
       ("urgency_days", PFloat (Binary64.of_Z 5));
       ("cargo_type_perishable", PInt 0);
       ("cargo_type_fragile", PInt 1);
       ("cargo_type_general", PInt 0)]
    = Ok {| columns := trained_feature_names; rows := [row] |} ∧
    Forall2 (fun n v =>
               (n, v) ∈ [("distance_km", PFloat (Binary64.of_Z 500));
                         ("weight_kg", PFloat (Binary64.of_Z 2000));
                         ("urgency_days", PFloat (Binary64.of_Z 5));
                         ("cargo_type_perishable", PInt 0);
                         ("cargo_type_fragile", PInt 1);
                         ("cargo_type_general", PInt 0)])
      trained_feature_names row.
Proof.
  destruct (X4_alignment_with_a_fitted_model Sample.libraries
              (model_predict Sample.regressor)
              ["general"; "fragile"; "perishable"; "fragile"] trained_feature_names
              Sample.fragile_request _
              ltac:(apply (bool_decide_unpack _); reflexivity) eq_refl
              fragile_request_validated) as (row & Hrow & Hrel & _).
  exists row. by split.
Defined.

(** ** What reaches the model, and what leaves the handler *)

(** X5.  A request that does not pass validation (a required key is
    absent, the cargo type is not one of the three, or a numeric value
    does not convert) is answered without the model: the answer is the
    same whatever the model and its feature names are. *)
Theorem X5_invalid_requests_never_reach_the_model
    (lib : Libraries) (model model' : Model) (data : gmap string pyval) :
  (∀ features, ¬ validated data features) →
  predict lib model data = predict lib model' data.
Proof.
  intros Hinv. unfold predict, predict_body.
  destruct (check_required data required_fields) as [[]|e] eqn:Hreq; [|done].
  apply check_required_Ok in Hreq. cbn [mbind res_bind].
  unfold py_getitem. destruct (data !! "cargo_type") as [c|] eqn:Hc; [|done].
  cbn [mbind res_bind]. destruct (py_in c cargo_types) eqn:Hin; [|done].
  cbn [negb]. destruct (encode_features data c) as [features|e] eqn:Henc; [|done].
  destruct (Hinv features). split; [done|]. by exists c.
Qed.

Lemma X5_hazardous_request_without_model :
  predict Sample.libraries Sample.regressor Sample.hazardous_request
  = predict Sample.libraries Sample.broken_regressor Sample.hazardous_request.
Proof.
  apply X5_invalid_requests_never_reach_the_model.
  intros features (_ & c & Hc & Hin & _).
  injection Hc as <-. discriminate Hin.
Defined.

Lemma bind_Raise_cases {A B} (m : res A) (f : A → res B) e :
  m ≫= f = Raise e → m = Raise e ∨ ∃ a, m = Ok a ∧ f a = Raise e.
Proof.
  destruct m as [a|e']; simpl; intros H; [right; exists a; by split|left; by injection H as ->].
Qed.

Lemma encode_features_raises_Exception data cargo_type e :
  encode_features data cargo_type = Raise e → isinstance e "Exception" = true.
Proof.
  unfold encode_features, py_getitem. intros H.
  destruct (data !! "distance_km") as [v0|]; [|by injection H as <-]. simpl in H.
  destruct (py_float v0) as [x0|e0] eqn:E0;
    [|injection H as <-; by eapply py_float_raises_Exception]. simpl in H.
  destruct (data !! "weight_kg") as [v1|]; [|by injection H as <-]. simpl in H.
  destruct (py_float v1) as [x1|e1] eqn:E1;
    [|injection H as <-; by eapply py_float_raises_Exception]. simpl in H.
  destruct (data !! "urgency_days") as [v2|]; [|by injection H as <-]. simpl in H.
  destruct (py_float v2) as [x2|e2] eqn:E2;
    [|injection H as <-; by eapply py_float_raises_Exception]. done.
Qed.

(** An exception that leaves the body of the [try] statement and is no
    [Exception] was raised by the model. *)
Lemma predict_body_raises lib model data e :
  predict_body lib model data = Raise e →
  isinstance e "Exception" = true ∨ ∃ frame, model_predict model frame = Raise e.
Proof.
  unfold predict_body. intros H.
  apply bind_Raise_cases in H as [H|([] & _ & H)].
  { left. rewrite check_required_find in H.
    destruct (list_find _ _) as [[i f]|]; [|done]. by injection H as <-. }
  apply bind_Raise_cases in H as [H|(c & _ & H)].
  { left. unfold py_getitem in H. destruct (data !! "cargo_type"); [done|].
    by injection H as <-. }
  destruct (negb _); [left; by injection H as <-|].
  apply bind_Raise_cases in H as [H|(features & _ & H)].
  { left. by eapply encode_features_raises_Exception. }
  apply bind_Raise_cases in H as [H|(frame & _ & H)].
  { left. unfold input_data, df_getitem in H.
    destruct (filter _ _); [done|]. by injection H as <-. }
  unfold predict_frame in H.
  apply bind_Raise_cases in H as [H|(price & _ & H)].
  - apply bind_Raise_cases in H as [H|(predictions & _ & H)]; [right; by exists frame|].
    left. destruct predictions; [|done]. by injection H as <-.
  - apply bind_Raise_cases in H as [H|(rounded & _ & H)]; [|done].
    left. unfold py_round in H. destruct (Binary64.float_round _ _); [done|].
    by injection H as <-.
Qed.

(** X6.  Whatever the request and the model, an exception that leaves
    the handler is an [HTTPException] of status 422 or of status 500, or
    else it is no [Exception] at all and was raised by the model's
    [predict]: the handler lets no other [Exception] through and answers
    with no other status. *)
Theorem X6_what_leaves_the_handler
    (lib : Libraries) (model : Model) (data : gmap string pyval) (e : exn) :
  predict lib model data = Raise e →
  (∃ detail, e = HTTPException 422 detail) ∨
  (∃ detail, e = HTTPException 500 detail) ∨
  (isinstance e "Exception" = false ∧ ∃ frame, model_predict model frame = Raise e).
Proof.
  unfold predict. destruct (predict_body lib model data) as [r|e'] eqn:Hbody; [done|].
  cbn [try_except]. intros [= <-]. unfold handle.
  destruct (isinstance e' "ValueError"); [left; by eexists|].
  destruct (isinstance e' "Exception") eqn:He; [right; left; by eexists|].
  right; right. split; [done|].
  apply predict_body_raises in Hbody as [Hexc|Hmodel]; [congruence|done].
Qed.

Lemma X6_broken_regressor_answer :
  (∃ detail, HTTPException 500 "out of memory" = HTTPException 422 detail) ∨
  (∃ detail, HTTPException 500 "out of memory" = HTTPException 500 detail) ∨
  (isinstance (HTTPException 500 "out of memory") "Exception" = false ∧
   ∃ frame, model_predict Sample.broken_regressor frame
            = Raise (HTTPException 500 "out of memory")).
Proof.
  apply (X6_what_leaves_the_handler Sample.libraries Sample.broken_regressor
           Sample.fragile_request).
  reflexivity.
Defined.

(** ** How the request is read *)

Lemma fmap_None_iff {A B} (f : A → B) (o1 o2 : option A) :
  f <$> o1 = f <$> o2 → (o1 = None ↔ o2 = None).
Proof. by destruct o1, o2. Qed.

Lemma getitem_float_ext (d1 d2 : gmap string pyval) (k : string) :
  py_float <$> d1 !! k = py_float <$> d2 !! k →
  py_getitem d1 k ≫= py_float = py_getitem d2 k ≫= py_float.
Proof.
  unfold py_getitem. destruct (d1 !! k), (d2 !! k); simpl; intros H; try done.
  by injection H.
Qed.

(** X7.  The handler reads a numeric value only through [float()]: two
    requests with the same cargo type whose distance, weight and urgency
    are each absent from both or convert to the same number (or fail with
    the same error) get the same answer; a number may so be given as a
    JSON number, a numeric string or a boolean. *)
Theorem X7_numeric_values_are_read_through_float
    (lib : Libraries) (model : Model) (d1 d2 : gmap string pyval) :
  d1 !! "cargo_type" = d2 !! "cargo_type" →
  (∀ k, k ∈ ["distance_km"; "weight_kg"; "urgency_days"] →
        py_float <$> d1 !! k = py_float <$> d2 !! k) →
  predict lib model d1 = predict lib model d2.
Proof.
  intros Hc Hnum.
  assert (H0 := Hnum "distance_km" ltac:(apply (bool_decide_unpack _); reflexivity)).
  assert (H1 := Hnum "weight_kg" ltac:(apply (bool_decide_unpack _); reflexivity)).
  assert (H2 := Hnum "urgency_days" ltac:(apply (bool_decide_unpack _); reflexivity)).
  assert (Hreq : check_required d1 required_fields = check_required d2 required_fields).
  { unfold required_fields. cbn [check_required]. rewrite Hc.
    rewrite (bool_decide_ext _ _ (fmap_None_iff _ _ _ H0)).
    rewrite (bool_decide_ext _ _ (fmap_None_iff _ _ _ H1)).
    by rewrite (bool_decide_ext _ _ (fmap_None_iff _ _ _ H2)). }
  assert (Hg : py_getitem d1 "cargo_type" = py_getitem d2 "cargo_type")
    by (unfold py_getitem; by rewrite Hc).
  assert (Henc : ∀ c, encode_features d1 c = encode_features d2 c).
  { intros c. unfold encode_features.
    by rewrite (getitem_float_ext d1 d2 _ H0), (getitem_float_ext d1 d2 _ H1),
      (getitem_float_ext d1 d2 _ H2). }
  unfold predict, predict_body. rewrite Hreq, Hg.
  destruct (check_required d2 required_fields); [|done]. cbn [mbind res_bind].
  destruct (py_getitem d2 "cargo_type") as [c|]; [|done]. cbn [mbind res_bind].
  by rewrite Henc.
Qed.

Lemma X7_numbers_given_as_strings :
  predict Sample.libraries Sample.regressor
    (Sample.request (PStr "500") (PStr " 2_000.0 ") (PStr "fragile") (PBool true))
  = predict Sample.libraries Sample.regressor
      (Sample.request (PInt 500) (PInt 2000) (PStr "fragile") (PInt 1)).
Proof.
  apply X7_numeric_values_are_read_through_float; [reflexivity|].
  intros k Hk.
  repeat (apply elem_of_cons in Hk as [->|Hk]; [vm_compute; reflexivity|]).
  by apply elem_of_nil in Hk.
Defined.

(** X10.  When required keys are absent, the body of the handler raises
    the missing-field error of status 422 for the first absent key in
    the order distance, weight, cargo type, urgency, before the cargo
    type is tested and before any value is converted: the other values
    of the request do not matter. *)
Theorem X10_first_absent_key_is_reported
    (lib : Libraries) (model : Model) (data : gmap string pyval) :
  (∃ f, f ∈ required_fields ∧ data !! f = None) →
  ∃ i field,
    required_fields !! i = Some field ∧ data !! field = None ∧
    (∀ j g, required_fields !! j = Some g → (j < i)%nat → is_Some (data !! g)) ∧
    predict_body lib model data
    = Raise (HTTPException 422 ("Missing required field: " +:+ field)).
Proof.
  intros (f & Hf & Hnone).
  destruct (list_find (fun f => data !! f = None) required_fields) as [[i field]|] eqn:E.
  - pose proof E as (Hi & Hfield & Hbefore)%list_find_Some.
    exists i, field. split_and!; [done|done| |].
    + intros j g Hj Hlt. specialize (Hbefore j g Hj Hlt). by destruct (data !! g).
    + apply predict_body_missing. unfold first_missing. by rewrite E.
  - apply list_find_None in E. rewrite Forall_forall in E. by destruct (E f Hf).
Qed.

Lemma X10_empty_request :
  ∃ i field,
    required_fields !! i = Some field ∧ (∅ : gmap string pyval) !! field = None ∧
    (∀ j g, required_fields !! j = Some g → (j < i)%nat →
            is_Some ((∅ : gmap string pyval) !! g)) ∧
    predict_body Sample.libraries Sample.regressor ∅
    = Raise (HTTPException 422 ("Missing required field: " +:+ field)).
Proof.
  apply X10_first_absent_key_is_reported.
  exists "urgency_days". split; [|reflexivity].
  apply (bool_decide_unpack _). reflexivity.
Defined.

(** X11.  Among the three numeric values, the first one, in the order
    distance, weight, urgency, whose conversion fails decides the answer
    alone: the answer is what the [except] clauses make of its exception,
    and the values after it are not converted, so that the status depends
    on the order of the fields when two values fail in different ways. *)
Theorem X11_first_failing_conversion_decides
    (lib : Libraries) (model : Model) (data : gmap string pyval)
    (c field : string) (v : pyval) (e : exn) :
  has_required data → data !! "cargo_type" = Some (PStr c) → c ∈ cargo_types →
  coercion_raises data field v e →
  predict lib model data = Raise (handle lib e) ∧
  (handle lib e = HTTPException 422 ("Invalid input format: " +:+ str_exn lib e) ∧
     (∃ s, v = PStr s) ∨
   handle lib e = HTTPException 500 (str_exn lib e) ∧ (∀ s, v ≠ PStr s)).
Proof.
  intros Hreq Hc Hin Hraise.
  assert (Hpy : py_in (PStr c) cargo_types = true)
    by (apply py_in_cargo_types; by exists c).
  split; [by eapply predict_coercion_raises|].
  assert (He : py_float v = Raise e) by (by inversion Hraise).
  apply py_float_raises in He as [(s & -> & _ & ->)|[(z & -> & ->)|(Hv & ->)]].
  - left. split; [reflexivity|by exists s].
  - right. split; [reflexivity|done].
  - right. split; [reflexivity|]. by destruct Hv as [->|[[l ->]|[d ->]]].
Qed.

Lemma X11_text_before_null_and_null_before_text :
  (predict Sample.libraries Sample.regressor
     (Sample.request (PStr "abc") PNone (PStr "fragile") (PInt 5))
   = Raise (handle Sample.libraries
              (ValueError "could not convert string to float: 'abc'")) ∧
   (handle Sample.libraries (ValueError "could not convert string to float: 'abc'")
    = HTTPException 422
        ("Invalid input format: "
         +:+ str_exn Sample.libraries
               (ValueError "could not convert string to float: 'abc'")) ∧
    (∃ s, PStr "abc" = PStr s) ∨
    handle Sample.libraries (ValueError "could not convert string to float: 'abc'")
    = HTTPException 500
        (str_exn Sample.libraries
           (ValueError "could not convert string to float: 'abc'")) ∧
    (∀ s, PStr "abc" ≠ PStr s))) ∧
  predict Sample.libraries Sample.regressor
    (Sample.request PNone (PStr "abc") (PStr "fragile") (PInt 5))
  = Raise (handle Sample.libraries
             (TypeError "float() argument must be a string or a real number, not 'NoneType'")).
Proof.
  split.
  - apply (X11_first_failing_conversion_decides Sample.libraries Sample.regressor
             _ "fragile" "distance_km").
    + solve_has_required.
    + reflexivity.
    + apply (bool_decide_unpack _). reflexivity.
    + by apply raises_distance.
  - apply (X11_first_failing_conversion_decides Sample.libraries Sample.regressor
             _ "fragile" "distance_km" PNone).
    + solve_has_required.
    + reflexivity.
    + apply (bool_decide_unpack _). reflexivity.
    + by apply raises_distance.
Defined.

(** ** The rounded price *)

Section RoundedPrice.
Local Open Scope Z_scope.

(** Rounding a value below [2 ^ B], for a [B] far from the top of the
    range, gives a finite number of the sign asked for. *)
Lemma binary_round_aux_small_finite (sx : bool) (mx ex : Z) (lx : location) (B : Z) :
  0 ≤ mx → ex ≤ 0 → 0 ≤ B ≤ 1000 → mx < 2 ^ (B - ex) →
  Binary64.is_finite (binary_round_aux 53 1024 sx mx ex lx) = true ∧
  Binary64.sign (binary_round_aux 53 1024 sx mx ex lx) = sx.
Proof.
  intros Hmx Hex HB Hlt. unfold binary_round_aux.
  pose proof (shr_fexp_spec mx ex lx Hmx) as [He1 Hm1]. cbv zeta in He1, Hm1.
  destruct (shr_fexp 53 1024 mx ex lx) as [mrs1 e1]. cbn [fst snd] in He1, Hm1.
  assert (HD : Zdigits2 mx ≤ B - ex) by (apply Zdigits2_le; lia).
  assert (He1B : ex ≤ e1 ≤ B) by (unfold Binary64.fexp64 in He1; lia).
  assert (Hm1nn : 0 ≤ shr_m mrs1).
  { rewrite Hm1. apply Z.div_pos; [done|]. apply Z.pow_pos_nonneg; lia. }
  assert (Hm1lt : shr_m mrs1 < 2 ^ (B - e1)).
  { rewrite Hm1. apply Z.div_lt_upper_bound; [apply Z.pow_pos_nonneg; lia|].
    rewrite <- Z.pow_add_r by lia. replace (e1 - ex + (B - e1)) with (B - ex) by lia. done. }
  pose proof (round_nearest_even_bounds (shr_m mrs1) (loc_of_shr_record mrs1) Hm1nn) as Hr.
  set (mr := round_nearest_even (shr_m mrs1) (loc_of_shr_record mrs1)) in *.
  assert (Hmr : 0 ≤ mr) by lia.
  pose proof (shr_fexp_spec mr e1 loc_Exact Hmr) as [He2 Hm2]. cbv zeta in He2, Hm2.
  destruct (shr_fexp 53 1024 mr e1 loc_Exact) as [mrs2 e2]. cbn [fst snd] in He2, Hm2.
  assert (HDr : Zdigits2 mr ≤ B - e1 + 1).
  { apply Zdigits2_le; [done|lia|]. rewrite Z.pow_add_r by lia. lia. }
  assert (He2B : e2 ≤ 971) by (unfold Binary64.fexp64 in He1, He2; lia).
  assert (Hm2nn : 0 ≤ shr_m mrs2).
  { rewrite Hm2. apply Z.div_pos; [done|]. apply Z.pow_pos_nonneg; lia. }
  destruct (shr_m mrs2); [done| |lia].
  change (1024 - 53) with 971. by destruct (Z.leb_spec e2 971); [|lia].
Qed.

Lemma of_ratio_small_finite (sx : bool) (k : N) (d : positive) :
  (Z.of_N k < 2 ^ 1000) →
  Binary64.is_finite (Binary64.of_ratio sx k d) = true ∧
  Binary64.sign (Binary64.of_ratio sx k d) = sx.
Proof.
  intros Hk. destruct k as [|p]; [done|]. cbn [Binary64.of_ratio].
  unfold Binary64.prec, Binary64.emax.
  destruct (SFdiv_core_binary_spec p d) as (s & Hs & ->).
  apply binary_round_aux_small_finite with (B := 1000); [|lia|lia|].
  - apply Z.div_pos; [|lia]. apply Z.mul_nonneg_nonneg; [lia|]. apply Z.pow_nonneg. lia.
  - assert (0 < 2 ^ s) by (apply Z.pow_pos_nonneg; lia).
    apply Z.le_lt_trans with (Z.pos p * 2 ^ s).
    + apply Z.div_le_upper_bound; [lia|]. nia.
    + replace (1000 - - s) with (1000 + s) by lia. rewrite Z.pow_add_r by lia.
      simpl Z.of_N in Hk. nia.
Qed.

(** [round(x, 2)] of a finite binary64 number is finite and has its
    sign. *)
Lemma float_round_2_finite (x : float) :
  Binary64.valid x = true → Binary64.is_finite x = true →
  ∃ r, Binary64.float_round x 2 = Some r ∧
       Binary64.is_finite r = true ∧ Binary64.sign r = Binary64.sign x.
Proof.
  unfold Binary64.valid, Binary64.prec, Binary64.emax. intros Hv Hfin.
  destruct x as [s|s| |s m e]; [by eexists|done|done|].
  cbn [valid_binary] in Hv.
  destruct (Z.le_gt_cases 0 e) as [He|He].
  { eexists. split; [by apply float_round_2_integral|done]. }
  destruct e as [|pe|pe]; [lia|lia|].
  unfold Binary64.float_round. cbn [Binary64.is_finite negb].
  change (Binary64.NDIGITS_MAX <? 2) with false.
  change (2 <? Binary64.NDIGITS_MIN) with false. cbv iota.
  unfold Binary64.double_round, Binary64.of_decimal.
  change (- (2)) with (Z.neg 2). cbv iota. change (10 ^ 2)%positive with 100%positive.
  unfold Binary64.dtoa_fixed. cbv iota. cbn [Binary64.sign Binary64.magnitude].
  pose proof (bounded_lt_pow m _ Hv) as Hm.
  assert (Hd : 2 ≤ Z.pos (2 ^ pe)).
  { rewrite Pos2Z.inj_pow. change 2 with (2 ^ 1) at 1.
    apply Z.pow_le_mono_r; lia. }
  pose proof (round_half_even_le (Z.pos m * 10 ^ 2) (Z.pos (2 ^ pe)) ltac:(lia) Hd) as Hk.
  set (k := Z.to_N (Binary64.round_half_even (Z.pos m * 10 ^ 2) (Z.pos (2 ^ pe)))).
  assert (Hsmall : Z.of_N k < 2 ^ 1000).
  { subst k. rewrite Z2N.id by lia.
    apply Z.le_lt_trans with (Z.pos m * 10 ^ 2); [lia|].
    apply Z.lt_le_trans with (2 ^ 53 * 10 ^ 2); [lia|]. by vm_compute. }
  destruct (of_ratio_small_finite s k 100 Hsmall) as [Hf Hs].
  destruct (Binary64.of_ratio s k 100) as [s'|s'| |s' m' e'] eqn:E; try done; by eexists.
Qed.
End RoundedPrice.

(** X9.  When the handler returns a response for a model price that is
    a finite binary64 number, the price in the response is finite too,
    never NaN nor an infinity, and has the sign of the model's price. *)
Theorem X9_rounded_price_is_finite
    (lib : Libraries) (model : Model) (data : gmap string pyval)
    (response : list (string * pyval)) :
  predict lib model data = Ok response →
  ∃ features frame predictions price rounded,
    validated data features ∧
    input_data lib model features = Ok frame ∧
    model_predict model frame = Ok (price :: predictions) ∧
    response = [("predicted_price", PFloat rounded)] ∧
    (Binary64.valid price = true → Binary64.is_finite price = true →
     Binary64.is_finite rounded = true ∧ Binary64.sign rounded = Binary64.sign price).
Proof.
  intros H.
  apply predict_Ok_inv in H
    as (features & frame & predictions & price & rounded & Hv & Hf & Hp & Hr & ->).
  exists features, frame, predictions, price, rounded. split_and!; try done.
  intros Hvalid Hfin.
  destruct (float_round_2_finite price Hvalid Hfin) as (r & Hr' & Hfin' & Hsign).
  unfold py_round in Hr. rewrite Hr' in Hr. by injection Hr as <-.
Qed.

Lemma X9_fragile_request_price_is_finite :
  ∃ features frame predictions price rounded,
    validated Sample.fragile_request features ∧
    input_data Sample.libraries Sample.regressor features = Ok frame ∧
    model_predict Sample.regressor frame = Ok (price :: predictions) ∧
    [("predicted_price", PFloat Sample.price_123_46)]
    = [("predicted_price", PFloat rounded)] ∧
    (Binary64.valid price = true → Binary64.is_finite price = true →
     Binary64.is_finite rounded = true ∧ Binary64.sign rounded = Binary64.sign price).
Proof.
  apply (X9_rounded_price_is_finite Sample.libraries Sample.regressor
           Sample.fragile_request).
  vm_compute. reflexivity.
Defined.

(** ** From the training script to the answer *)

Lemma startup_loaded (lib : Libraries) (est : Estimator) (names : list string) :
  est_feature_names_in_ est = Ok names →
  startup lib (Ok est)
  = Ok {| feature_names_in_ := names; model_predict := est_predict est |}.
Proof. unfold startup. cbn [mbind res_bind]. by intros ->. Qed.

(** X8.  When the estimator that is loaded at start was fitted by the
    training script on a sample of the three cargo types, the service
    starts, and every validated request whose row the estimator answers
    with a binary64 price is answered with the one-entry response that
    holds this price rounded to the nearest hundredth: between validation
    and the model nothing can fail. *)
Theorem X8_validated_requests_are_answered
    (lib : Libraries) (est : Estimator) (cargo_type : list string) (names : list string)
    (data : gmap string pyval) (features : list (string * pyval)) :
  Forall (fun v => v ∈ Train.cargo_choices) cargo_type →
  Train.fitted_feature_names cargo_type = Some names →
  est_feature_names_in_ est = Ok names →
  validated data features →
  ∃ model frame,
    startup lib (Ok est) = Ok model ∧
    input_data lib model features = Ok frame ∧
    columns frame = names ∧
    ∀ price predictions,
      est_predict est frame = Ok (price :: predictions) →
      Binary64.valid price = true →
      ∃ rounded, nearest_hundredth price rounded ∧
        predict lib model data = Ok [("predicted_price", PFloat rounded)].
Proof.
  intros Hall Hfit Hnames Hval.
  destruct (fitted_names_encoded cargo_type Hall) as (names' & Hfit' & Hsub).
  rewrite Hfit in Hfit'. injection Hfit' as <-.
  pose proof (validated_keys data features Hval) as Hkeys.
  destruct (df_getitem_of_record lib features names) as (row & Hrow & _).
  { intros n Hn. rewrite Hkeys. by apply Hsub. }
  eexists _, _. split; [by apply startup_loaded|]. split; [exact Hrow|].
  split; [done|]. intros price predictions Hpred Hvalid.
  by eapply predict_returns.
Qed.

Lemma X8_fragile_request_is_answered :
  ∃ model frame,
    startup Sample.libraries
      (Ok {| est_feature_names_in_ := Ok trained_feature_names;
             est_predict := model_predict Sample.regressor |})
    = Ok model ∧
    input_data Sample.libraries model
      [("distance_km", PFloat (Binary64.of_Z 500));
       ("weight_kg", PFloat (Binary64.of_Z 2000));
       ("urgency_days", PFloat (Binary64.of_Z 5));
       ("cargo_type_perishable", PInt 0);
       ("cargo_type_fragile", PInt 1);
       ("cargo_type_general", PInt 0)]
    = Ok frame ∧
    columns frame = trained_feature_names ∧
    ∀ price predictions,
      model_predict Sample.regressor frame = Ok (price :: predictions) →
      Binary64.valid price = true →
      ∃ rounded, nearest_hundredth price rounded ∧
        predict Sample.libraries model Sample.fragile_request
        = Ok [("predicted_price", PFloat rounded)].
Proof.
  apply (X8_validated_requests_are_answered Sample.libraries
           {| est_feature_names_in_ := Ok trained_feature_names;
              est_predict := model_predict Sample.regressor |}
           ["perishable"; "general"; "fragile"] trained_feature_names
           Sample.fragile_request).
  - apply (bool_decide_unpack _). reflexivity.
  - reflexivity.
  - reflexivity.
  - exact fragile_request_validated.
Defined.

(** ** Starting the service *)

(** X12.  The service starts with a model exactly when loading returns
    an estimator whose [feature_names_in_] can be read: then it does
    start, serving that estimator under these names, and it starts in no
    other case; every [Exception] raised by the loading or by reading
    the attribute, as for an estimator fitted without column names, is
    raised again as a [RuntimeError] whose text is "Failed to load
    model: " followed by the text of the cause. *)
Theorem X12_startup_serves_or_fails
    (lib : Libraries) (load : res Estimator) :
  (∀ est names, load = Ok est → est_feature_names_in_ est = Ok names →
     startup lib load
     = Ok {| feature_names_in_ := names; model_predict := est_predict est |}) ∧
  (∀ model, startup lib load = Ok model →
     ∃ est names, load = Ok est ∧ est_feature_names_in_ est = Ok names ∧
       model = {| feature_names_in_ := names; model_predict := est_predict est |}) ∧
  (∀ cause, isinstance cause "Exception" = true →
     (load = Raise cause ∨ ∃ est, load = Ok est ∧ est_feature_names_in_ est = Raise cause) →
     startup lib load
     = Raise (RuntimeError ("Failed to load model: " +:+ str_exn lib cause))).
Proof.
  split_and!.
  - intros est names -> Hnames. by apply startup_loaded.
  - unfold startup. intros model H. destruct load as [est|e]; cbn [mbind res_bind] in H.
    + destruct (est_feature_names_in_ est) as [names|e] eqn:E; cbn [mbind res_bind] in H.
      * injection H as <-. by exists est, names.
      * by destruct (isinstance e "Exception").
    + by destruct (isinstance e "Exception").
  - unfold startup. intros cause Hc [->|(est & -> & Hattr)]; cbn [mbind res_bind].
    + by rewrite Hc.
    + rewrite Hattr. cbn [mbind res_bind]. by rewrite Hc.
Qed.

Lemma X12_estimator_without_column_names :
  startup Sample.libraries
    (Ok {| est_feature_names_in_ := Ok trained_feature_names;
           est_predict := model_predict Sample.regressor |})
  = Ok {| feature_names_in_ := trained_feature_names;
          model_predict := model_predict Sample.regressor |} ∧
  startup Sample.libraries
    (Ok {| est_feature_names_in_ :=
             Raise (PyExc ["AttributeError"; "Exception"; "BaseException"]
                      "'RandomForestRegressor' object has no attribute 'feature_names_in_'");
           est_predict := model_predict Sample.regressor |})
  = Raise (RuntimeError
             ("Failed to load model: "
              +:+ str_exn Sample.libraries
                    (PyExc ["AttributeError"; "Exception"; "BaseException"]
                       "'RandomForestRegressor' object has no attribute 'feature_names_in_'"))).
Proof.
  split.
  - apply (proj1 (X12_startup_serves_or_fails Sample.libraries _)
             {| est_feature_names_in_ := Ok trained_feature_names;
                est_predict := model_predict Sample.regressor |});
      reflexivity.
  - apply (proj2 (proj2 (X12_startup_serves_or_fails Sample.libraries _)));
      [reflexivity|].
    right. by eexists.
Defined.
